(** * Arc Testnet DApp: the client-side transaction orchestration of
    [frontend/src/ui/App.tsx], with the [swap] entry point of
    [EscbaseToken.sol].

    The React component is embedded as explicit state passing: the hooks
    ([provider], [busy], [deployed], [logs], ...) are the fields of
    [AppState]; every [await] on the wallet, the chain or a contract is a
    typed request answered by an arbitrary environment, and each request is
    recorded with its answer in a trace.  A rejected promise is a thrown
    value, handled by [try]/[catch]/[finally] combinators. *)

From Stdlib Require Import ZArith List String Ascii Bool Lia.
From Stdlib Require Import DecimalString DecimalN DecimalPos.
Import ListNotations.
Local Open Scope string_scope.
Local Open Scope Z_scope.

(** ** JavaScript strings

    A [string] is read as a sequence of UTF-16 code units, one [ascii] per
    unit; the only literal of the handlers outside that range is the
    ellipsis of [getErrorMessage] and [sendUSDC], kept as the constant
    [ellipsis]. *)

Module Js.

(** Lower case of a code unit below 256: the letters A-Z, and the
    accented capitals 192-222 but for the multiplication sign 215. *)
Definition lower_ascii (c : ascii) : ascii :=
  let n := nat_of_ascii c in
  if andb (Nat.leb 65 n) (Nat.leb n 90) then ascii_of_nat (n + 32)
  else if andb (andb (Nat.leb 192 n) (Nat.leb n 222)) (negb (Nat.eqb n 215))
       then ascii_of_nat (n + 32)
       else c.

(** [s.toLowerCase()] *)
Fixpoint toLowerCase (s : string) : string :=
  match s with
  | EmptyString => EmptyString
  | String c r => String (lower_ascii c) (toLowerCase r)
  end.

(** [s.includes(needle)] *)
Fixpoint includes (needle s : string) : bool :=
  if String.prefix needle s then true
  else match s with
       | EmptyString => false
       | String _ r => includes needle r
       end.

(** [s.slice(0, n)] *)
Definition slice_to (n : nat) (s : string) : string := substring 0 n s.

(** [s.slice(-n)] *)
Definition slice_last (n : nat) (s : string) : string :=
  substring (String.length s - n) n s.

(** Truthiness of a string: [!s] holds exactly for the empty string. *)
Definition truthy (s : string) : bool :=
  match s with EmptyString => false | _ => true end.

(** Truthiness of an optional string property ([undefined] is falsy). *)
Definition truthy_opt (o : option string) : bool :=
  match o with Some s => truthy s | None => false end.

(** [a || b] on an optional string property and a string. *)
Definition or_else (a : option string) (b : string) : string :=
  if truthy_opt a then match a with Some s => s | None => b end else b.

(** A thrown value ([e : any]).  [Falsy] stands for a thrown [undefined],
    [null], [0] or empty string; every other value is seen through the
    properties the handlers probe: a numeric [code] ([None] when the
    property is absent or not a number), the string properties
    [shortMessage] and [message], and [String(e)]. *)
Record ErrorObject := {
  err_code : option Z;
  err_shortMessage : option string;
  err_message : option string;
  err_toString : string
}.

Inductive Thrown :=
| Falsy
| Obj (o : ErrorObject).

(** [e.code === n] *)
Definition code_is (n : Z) (o : ErrorObject) : bool :=
  match err_code o with Some c => Z.eqb c n | None => false end.

(** [e?.message?.includes(needle)], as a condition *)
Definition message_includes (needle : string) (o : ErrorObject) : bool :=
  match err_message o with Some m => includes needle m | None => false end.

End Js.
Import Js.

Definition ellipsis : string := "…".

(** ** Types of the component *)

Record DeployedAddresses := {
  nft : option string;
  token : option string
}.

Inductive LogType := info | success | error.

Record LogItem := {
  type : LogType;
  message : string;
  href : option string
}.

Definition ARC_CHAIN_ID_HEX : string := "0x4cef52".

Record NativeCurrency := {
  name : string;
  symbol : string;
  decimals : Z
}.

Record ChainParams := {
  chainId : string;
  chainName : string;
  nativeCurrency : NativeCurrency;
  rpcUrls : list string;
  blockExplorerUrls : list string
}.

Definition ARC_PARAMS : ChainParams := {|
  chainId := ARC_CHAIN_ID_HEX;
  chainName := "Arc Testnet";
  nativeCurrency := {| name := "USDC"; symbol := "USDC"; decimals := 18 |};
  rpcUrls := ["https://rpc.testnet.arc.network"];
  blockExplorerUrls := ["https://testnet.arcscan.app"]
|}.

(** The handle created by [new BrowserProvider(window.ethereum)]. *)
Inductive BrowserProvider := WindowEthereum.

Record AppState := {
  provider : option BrowserProvider;
  signerAddress : string;
  busy : bool;
  deployed : DeployedAddresses;
  logs : list LogItem;
  nativeBalance : string;
  sendRecipient : string;
  sendAmount : string;
  swapAmount : string
}.

(** The values of the [useState] initialisers. *)
Definition initialState : AppState := {|
  provider := None;
  signerAddress := "";
  busy := false;
  deployed := {| nft := None; token := None |};
  logs := [];
  nativeBalance := "";
  sendRecipient := "";
  sendAmount := "";
  swapAmount := ""
|}.

(** ** Objects handed out by the ethers library *)

Inductive ContractKind := SimpleNFT | EscbaseToken.

(** A [JsonRpcSigner]; [getAddress()] resolves to its [address] field. *)
Record Signer := { signer_address : string }.

(** A [TransactionResponse]. *)
Record Tx := { hash : string }.

(** The contract object returned by [factory.deploy()]: its target address,
    computed when the creation transaction is sent, so that [getAddress()]
    resolves to it without a request, and [deploymentTransaction()], which
    the library types as nullable. *)
Record Deployment := {
  target : string;
  deploymentTransaction : option Tx
}.

(** ** Requests to the wallet, the chain and the contracts *)

Inductive Call : Type -> Type :=
| eth_requestAccounts : Call unit
| eth_chainId : Call (option string)
| wallet_switchEthereumChain (id : string) : Call unit
| wallet_addEthereumChain (params : ChainParams) : Call unit
| getSigner : Call Signer
| getBalance (addr : string) : Call Z
| factory_deploy (k : ContractKind) (from : Signer) : Call Deployment
| waitForDeployment (c : Deployment) : Call unit
| contract_owner (k : ContractKind) (addr : string) : Call string
| nft_mint (addr to : string) : Call Tx
| token_mint (addr to : string) (amount : Z) : Call Tx
| token_swap (addr : string) (value : Z) : Call Tx
| sendTransaction (from : Signer) (to : string) (value : Z) : Call Tx
| tx_wait (tx : Tx) : Call unit.

(** How an awaited promise settles. *)
Inductive Outcome (T : Type) :=
| Resolved (v : T)
| Rejected (e : Thrown).
Arguments Resolved {T} v.
Arguments Rejected {T} e.

Inductive Event :=
| Ev {T : Type} (c : Call T) (r : Outcome T).

(** The environment answers a request knowing everything asked so far. *)
Definition Env := forall T : Type, list Event -> Call T -> Outcome T.

(** The component state, the requests issued so far (oldest first) and the
    [alert]s shown. *)
Record World := {
  app : AppState;
  trace : list Event;
  alerts : list string
}.

Definition initialWorld : World :=
  {| app := initialState; trace := []; alerts := [] |}.

(** ** The monad of handlers: state, trace and thrown values *)

Definition M (A : Type) : Type := World -> Outcome A * World.

Definition ret {A} (a : A) : M A := fun w => (Resolved a, w).

Definition throw {A} (e : Thrown) : M A := fun w => (Rejected e, w).

Definition bind {A B} (m : M A) (k : A -> M B) : M B :=
  fun w => match m w with
           | (Resolved a, w') => k a w'
           | (Rejected e, w') => (Rejected e, w')
           end.

Notation "x <- m ;; k" := (bind m (fun x => k))
  (at level 61, m at next level, right associativity).
Notation "m ;;; k" := (bind m (fun _ => k))
  (at level 61, right associativity).

(** [try { body } catch (e) { handler }] *)
Definition try_catch {A} (body : M A) (handler : Thrown -> M A) : M A :=
  fun w => match body w with
           | (Resolved a, w') => (Resolved a, w')
           | (Rejected e, w') => handler e w'
           end.

(** [try { body } finally { fin }] *)
Definition finally {A} (body : M A) (fin : M unit) : M A :=
  fun w => let (r, w') := body w in
           match fin w' with
           | (Resolved _, w'') => (r, w'')
           | (Rejected e, w'') => (Rejected e, w'')
           end.

(** A library function that may throw, run inside a handler. *)
Definition lift {A} (o : Outcome A) : M A := fun w => (o, w).

Definition update (f : AppState -> AppState) : M unit :=
  fun w => (Resolved tt, {| app := f (app w); trace := trace w; alerts := alerts w |}).

Definition alert (msg : string) : M unit :=
  fun w => (Resolved tt, {| app := app w; trace := trace w; alerts := alerts w ++ [msg] |}).

(** ** State setters *)

Definition setProvider (p : option BrowserProvider) : M unit :=
  update (fun s => {| provider := p; signerAddress := signerAddress s; busy := busy s;
                      deployed := deployed s; logs := logs s; nativeBalance := nativeBalance s;
                      sendRecipient := sendRecipient s; sendAmount := sendAmount s;
                      swapAmount := swapAmount s |}).

Definition setSignerAddress (a : string) : M unit :=
  update (fun s => {| provider := provider s; signerAddress := a; busy := busy s;
                      deployed := deployed s; logs := logs s; nativeBalance := nativeBalance s;
                      sendRecipient := sendRecipient s; sendAmount := sendAmount s;
                      swapAmount := swapAmount s |}).

Definition setBusy (b : bool) : M unit :=
  update (fun s => {| provider := provider s; signerAddress := signerAddress s; busy := b;
                      deployed := deployed s; logs := logs s; nativeBalance := nativeBalance s;
                      sendRecipient := sendRecipient s; sendAmount := sendAmount s;
                      swapAmount := swapAmount s |}).

Definition setDeployed (f : DeployedAddresses -> DeployedAddresses) : M unit :=
  update (fun s => {| provider := provider s; signerAddress := signerAddress s; busy := busy s;
                      deployed := f (deployed s); logs := logs s; nativeBalance := nativeBalance s;
                      sendRecipient := sendRecipient s; sendAmount := sendAmount s;
                      swapAmount := swapAmount s |}).

Definition setLogs (f : list LogItem -> list LogItem) : M unit :=
  update (fun s => {| provider := provider s; signerAddress := signerAddress s; busy := busy s;
                      deployed := deployed s; logs := f (logs s); nativeBalance := nativeBalance s;
                      sendRecipient := sendRecipient s; sendAmount := sendAmount s;
                      swapAmount := swapAmount s |}).

Definition setNativeBalance (b : string) : M unit :=
  update (fun s => {| provider := provider s; signerAddress := signerAddress s; busy := busy s;
                      deployed := deployed s; logs := logs s; nativeBalance := b;
                      sendRecipient := sendRecipient s; sendAmount := sendAmount s;
                      swapAmount := swapAmount s |}).

Definition setSendRecipient (r : string) : M unit :=
  update (fun s => {| provider := provider s; signerAddress := signerAddress s; busy := busy s;
                      deployed := deployed s; logs := logs s; nativeBalance := nativeBalance s;
                      sendRecipient := r; sendAmount := sendAmount s;
                      swapAmount := swapAmount s |}).

Definition setSendAmount (a : string) : M unit :=
  update (fun s => {| provider := provider s; signerAddress := signerAddress s; busy := busy s;
                      deployed := deployed s; logs := logs s; nativeBalance := nativeBalance s;
                      sendRecipient := sendRecipient s; sendAmount := a;
                      swapAmount := swapAmount s |}).

Definition setSwapAmount (a : string) : M unit :=
  update (fun s => {| provider := provider s; signerAddress := signerAddress s; busy := busy s;
                      deployed := deployed s; logs := logs s; nativeBalance := nativeBalance s;
                      sendRecipient := sendRecipient s; sendAmount := sendAmount s;
                      swapAmount := a |}).

(** ** Pure helpers of the component *)

Definition pushLog (item : LogItem) : M unit :=
  setLogs (fun prev => item :: prev).

Definition addressLink (addr : string) : string :=
  "https://testnet.arcscan.app/address/" ++ addr.

Definition txLink (h : string) : string :=
  "https://testnet.arcscan.app/tx/" ++ h.

Definition getErrorMessage (e : Thrown) : string :=
  match e with
  | Falsy => "Unknown error"
  | Obj o =>
      if orb (code_is 4001 o) (message_includes "ACTION_REJECTED" o)
      then "User rejected in MetaMask"
      else
        let msg := or_else (err_shortMessage o) (or_else (err_message o) (err_toString o)) in
        if Nat.ltb 180 (String.length msg)
        then slice_to 180 msg ++ ellipsis
        else msg
  end.

(** ** [parseUnits] and [formatUnits] of the ethers library

    Both go through the library's 512-bit signed fixed-point format: a value
    outside [-2^511, 2^511) is refused with a numeric fault. *)

Module Ethers.

Definition lib_error (short : string) : Thrown :=
  Obj {| err_code := None; err_shortMessage := Some short;
         err_message := Some short; err_toString := "Error: " ++ short |}.

Definition is_digit (c : ascii) : bool :=
  let n := nat_of_ascii c in andb (Nat.leb 48 n) (Nat.leb n 57).

Definition digit_value (c : ascii) : Z := Z.of_nat (nat_of_ascii c) - 48.

Fixpoint digits_acc (s : string) (acc : Z) : Z :=
  match s with
  | EmptyString => acc
  | String c r => digits_acc r (10 * acc + digit_value c)
  end.

(** [BigInt(s)] on a string of decimal digits. *)
Definition BigInt (s : string) : Z := digits_acc s 0.

(** [n.toString()] for a bigint [n >= 0]. *)
Definition decimal (n : Z) : string :=
  NilEmpty.string_of_uint (N.to_uint (Z.to_N n)).

(** The longest prefix of digits, and what follows it. *)
Fixpoint span_digits (s : string) : string * string :=
  match s with
  | EmptyString => (EmptyString, EmptyString)
  | String c r =>
      if is_digit c
      then let (d, rest) := span_digits r in (String c d, rest)
      else (EmptyString, s)
  end.

Fixpoint all_digits (s : string) : bool :=
  match s with
  | EmptyString => true
  | String c r => andb (is_digit c) (all_digits r)
  end.

Fixpoint zeros (n : nat) : string :=
  match n with O => EmptyString | S k => String "0" (zeros k) end.

Fixpoint all_zero (s : string) : bool :=
  match s with
  | EmptyString => true
  | String c r => andb (Ascii.eqb c "0") (all_zero r)
  end.

(** [s.substring(n)] *)
Definition drop (n : nat) (s : string) : string :=
  substring n (String.length s - n) s.

Definition in_range (v : Z) : bool :=
  andb (Z.leb (- 2 ^ 511) v) (Z.ltb v (2 ^ 511)).

(** [parseUnits(value, dec)]: an optional minus sign, digits, an optional
    point, digits, and nothing else, with a digit somewhere; the fraction
    is padded with zeros to [dec] digits, and digits beyond [dec] must be
    zeros. *)
Definition parseUnits (value : string) (dec : nat) : Outcome Z :=
  let (neg, rest) :=
    match value with
    | String c r => if Ascii.eqb c "-" then (true, r) else (false, value)
    | EmptyString => (false, value)
    end in
  let (whole, rest1) := span_digits rest in
  let rest2 :=
    match rest1 with
    | String c r => if Ascii.eqb c "." then r else rest1
    | EmptyString => rest1
    end in
  let (frac, rest3) := span_digits rest2 in
  if orb (truthy rest3) (Nat.eqb (String.length whole + String.length frac) 0)
  then Rejected (lib_error "invalid FixedNumber string value")
  else
    let whole := if truthy whole then whole else "0" in
    let padded := frac ++ zeros (dec - String.length frac) in
    if negb (all_zero (drop dec padded))
    then Rejected (lib_error "too many decimals for format")
    else
      let v := BigInt (whole ++ slice_to dec padded) in
      let v := if neg then - v else v in
      if in_range v then Resolved v else Rejected (lib_error "overflow").

(** Leading zeros of the whole part go, but for its last digit. *)
Fixpoint trim_whole (s : string) : string :=
  match s with
  | String c (String _ _ as t) => if Ascii.eqb c "0" then trim_whole t else s
  | _ => s
  end.

(** Trailing zeros go. *)
Fixpoint strip_zeros_r (s : string) : string :=
  match s with
  | EmptyString => EmptyString
  | String c r =>
      match strip_zeros_r r with
      | EmptyString => if Ascii.eqb c "0" then EmptyString else String c EmptyString
      | r' => String c r'
      end
  end.

(** Trailing zeros of the fraction go, but for the digit after the point. *)
Definition trim_fraction (s : string) : string :=
  match strip_zeros_r s with
  | EmptyString => "0"
  | f => f
  end.

(** The decimal rendering of a fixed-point value with [dec] decimals. *)
Definition fixed_toString (val : Z) (dec : nat) : string :=
  let negative := if Z.ltb val 0 then "-" else "" in
  let str := decimal (Z.abs val) in
  match dec with
  | O => negative ++ str
  | S _ =>
      let str := zeros (S dec - String.length str) ++ str in
      let index := (String.length str - dec)%nat in
      negative ++ trim_whole (slice_to index str) ++ "." ++ trim_fraction (drop index str)
  end.

Definition formatUnits (value : Z) (dec : nat) : Outcome string :=
  if in_range value then Resolved (fixed_toString value dec)
  else Rejected (lib_error "overflow").

End Ethers.

(** ** [EscbaseToken.sol]: the arithmetic of [swap]

    [uint256] arithmetic of Solidity 0.8 reverts on overflow; [None] is a
    revert, [Some m] the amount handed to [_mint]. *)

Module EscbaseTokenContract.

Definition SWAP_RATE : Z := 100000.

Definition uint256_max : Z := 2 ^ 256 - 1.

Definition checked_mul (a b : Z) : option Z :=
  if Z.leb (a * b) uint256_max then Some (a * b) else None.

Definition swap (msg_value : Z) : option Z :=
  if Z.ltb 0 msg_value
  then checked_mul msg_value SWAP_RATE
  else None.

End EscbaseTokenContract.

(** The state a handler leaves, and how its promise settles. *)
Definition exec {A} (m : M A) (w : World) : World := snd (m w).
Definition result {A} (m : M A) (w : World) : Outcome A := fst (m w).

(** The requests issued between two worlds of one run. *)
Definition new_events (w w' : World) : list Event :=
  skipn (List.length (trace w)) (trace w').

(** ** Observations on traces *)

Definition is_switch (e : Event) : bool :=
  match e with
  | Ev c _ => match c with wallet_switchEthereumChain _ => true | _ => false end
  end.

Definition is_add (e : Event) : bool :=
  match e with
  | Ev c _ => match c with wallet_addEthereumChain _ => true | _ => false end
  end.

(** The requests of network reconciliation. *)
Definition is_network_request (e : Event) : bool :=
  match e with
  | Ev c _ =>
      match c with
      | eth_chainId | wallet_switchEthereumChain _ | wallet_addEthereumChain _ => true
      | _ => false
      end
  end.

Definition count (p : Event -> bool) (tr : list Event) : nat :=
  List.length (filter p tr).

(** ** The handlers of the component

    [console.error] leaves no trace in the state and is left out, and so is
    the memoised [signerPromise], which no handler reads. *)

Section Handlers.

(** The wallet, the chain and the deployed contracts. *)
Variable env : Env.

(** Whether [window.ethereum] is injected. *)
Variable window_ethereum : bool.

(** An awaited request: the environment settles it, the trace records it. *)
Definition perform {T} (c : Call T) : M T :=
  fun w =>
    let r := env T (trace w) c in
    (r, {| app := app w; trace := trace w ++ [Ev c r]; alerts := alerts w |}).

(** The state a handler closes over is the one of the render it was
    created in, i.e. the state when the handler is invoked. *)
Definition closure {A} (k : AppState -> M A) : M A :=
  fun w => k (app w) w.

Definition is_target (current : option string) : bool :=
  match current with
  | Some c => String.eqb (toLowerCase c) ARC_CHAIN_ID_HEX
  | None => false
  end.

Definition unrecognized_chain (err : Thrown) : bool :=
  match err with
  | Falsy => false
  | Obj o => orb (code_is 4902 o) (message_includes "Unrecognized chain" o)
  end.

(** [e?.message || 'unknown error'] *)
Definition message_or_unknown (e : Thrown) : string :=
  match e with
  | Falsy => "unknown error"
  | Obj o => or_else (err_message o) "unknown error"
  end.

Definition ensureArcNetwork (prov : BrowserProvider) : M bool :=
  try_catch
    (current <- perform eth_chainId ;;
     if is_target current then ret true
     else
       try_catch
         (perform (wallet_switchEthereumChain ARC_CHAIN_ID_HEX) ;;;
          ret true)
         (fun err =>
            if unrecognized_chain err then
              perform (wallet_addEthereumChain ARC_PARAMS) ;;;
              perform (wallet_switchEthereumChain ARC_CHAIN_ID_HEX) ;;;
              ret true
            else throw err))
    (fun e =>
       pushLog {| type := error;
                  message := "Failed to switch to Arc Testnet: " ++ message_or_unknown e;
                  href := None |} ;;;
       ret false).

Definition connect : M unit :=
  if negb window_ethereum then
    alert "MetaMask not found. Please install it."
  else
    let prov := WindowEthereum in
    perform eth_requestAccounts ;;;
    ok <- ensureArcNetwork prov ;;
    if negb ok then ret tt
    else
      signer <- perform getSigner ;;
      setProvider (Some prov) ;;;
      setSignerAddress (signer_address signer) ;;;
      try_catch
        (bal <- perform (getBalance (signer_address signer)) ;;
         shown <- lift (Ethers.formatUnits bal 18) ;;
         setNativeBalance shown)
        (fun _ => ret tt) ;;;
      pushLog {| type := success;
                 message := "Wallet connected and on Arc Testnet.";
                 href := None |}.

(** What every [catch] block of the six actions does. *)
Definition logError (e : Thrown) : M unit :=
  pushLog {| type := error; message := getErrorMessage e; href := None |}.

Arguments Ethers.parseUnits : simpl never.
Arguments Ethers.formatUnits : simpl never.

(** The [try] block of [deployNFT]. *)
Definition deployNFT_try : M unit :=
  signer <- perform getSigner ;;
  contract <- perform (factory_deploy SimpleNFT signer) ;;
  let deployTx := deploymentTransaction contract in
  perform (waitForDeployment contract) ;;;
  let address := target contract in
  setDeployed (fun prev => {| nft := Some address; token := token prev |}) ;;;
  pushLog {| type := success;
             message := "Deployed SimpleNFT at " ++ address;
             href := Some (addressLink address) |} ;;;
  match deployTx with
  | Some tx =>
      if truthy (hash tx)
      then pushLog {| type := info; message := "Deployment tx";
                      href := Some (txLink (hash tx)) |}
      else ret tt
  | None => ret tt
  end.

Definition deployNFT : M unit :=
  closure (fun s =>
    match provider s with
    | None => ret tt
    | Some _ =>
        setBusy true ;;;
        finally (try_catch deployNFT_try logError) (setBusy false)
    end).

(** The [try] block of [deployToken]. *)
Definition deployToken_try : M unit :=
  signer <- perform getSigner ;;
  contract <- perform (factory_deploy EscbaseToken signer) ;;
  let deployTx := deploymentTransaction contract in
  perform (waitForDeployment contract) ;;;
  let address := target contract in
  setDeployed (fun prev => {| nft := nft prev; token := Some address |}) ;;;
  pushLog {| type := success;
             message := "Deployed EscbaseToken at " ++ address;
             href := Some (addressLink address) |} ;;;
  match deployTx with
  | Some tx =>
      if truthy (hash tx)
      then pushLog {| type := info; message := "Deployment tx";
                      href := Some (txLink (hash tx)) |}
      else ret tt
  | None => ret tt
  end.

Definition deployToken : M unit :=
  closure (fun s =>
    match provider s with
    | None => ret tt
    | Some _ =>
        setBusy true ;;;
        finally (try_catch deployToken_try logError) (setBusy false)
    end).

(** The [try] block of [mintNft]; [deployed_nft] is [deployed.nft]. *)
Definition mintNft_try (deployed_nft : string) : M unit :=
  signer <- perform getSigner ;;
  owner <- perform (contract_owner SimpleNFT deployed_nft) ;;
  tx <- perform (nft_mint deployed_nft owner) ;;
  perform (tx_wait tx) ;;;
  pushLog {| type := success; message := "Minted NFT to owner";
             href := Some (txLink (hash tx)) |}.

Definition mintNft : M unit :=
  closure (fun s =>
    match provider s, nft (deployed s) with
    | Some _, Some deployed_nft =>
        if negb (truthy deployed_nft) then ret tt
        else
          setBusy true ;;;
          finally (try_catch (mintNft_try deployed_nft) logError) (setBusy false)
    | _, _ => ret tt
    end).

(** The [try] block of [mintToken]; [deployed_token] is [deployed.token]. *)
Definition mintToken_try (deployed_token : string) : M unit :=
  signer <- perform getSigner ;;
  owner <- perform (contract_owner EscbaseToken deployed_token) ;;
  amount <- lift (Ethers.parseUnits "100" 18) ;;
  tx <- perform (token_mint deployed_token owner amount) ;;
  perform (tx_wait tx) ;;;
  pushLog {| type := success; message := "Minted 100 ESC to owner";
             href := Some (txLink (hash tx)) |}.

Definition mintToken : M unit :=
  closure (fun s =>
    match provider s, token (deployed s) with
    | Some _, Some deployed_token =>
        if negb (truthy deployed_token) then ret tt
        else
          setBusy true ;;;
          finally (try_catch (mintToken_try deployed_token) logError) (setBusy false)
    | _, _ => ret tt
    end).

(** The [try] block of [sendUSDC]; [s] holds the [sendRecipient] and
    [sendAmount] of the closure. *)
Definition sendUSDC_try (s : AppState) : M unit :=
  signer <- perform getSigner ;;
  amount <- lift (Ethers.parseUnits (sendAmount s) 18) ;;
  tx <- perform (sendTransaction signer (sendRecipient s) amount) ;;
  perform (tx_wait tx) ;;;
  pushLog {| type := success;
             message := "Sent " ++ sendAmount s ++ " USDC to "
                        ++ slice_to 6 (sendRecipient s) ++ ellipsis
                        ++ slice_last 4 (sendRecipient s);
             href := Some (txLink (hash tx)) |} ;;;
  setSendRecipient "" ;;;
  setSendAmount "" ;;;
  (* Refresh balance *)
  bal <- perform (getBalance (signer_address signer)) ;;
  shown <- lift (Ethers.formatUnits bal 18) ;;
  setNativeBalance shown.

Definition sendUSDC : M unit :=
  closure (fun s =>
    match provider s with
    | None => ret tt
    | Some _ =>
        if orb (negb (truthy (sendRecipient s))) (negb (truthy (sendAmount s)))
        then ret tt
        else
          setBusy true ;;;
          finally (try_catch (sendUSDC_try s) logError) (setBusy false)
    end).

(** The [try] block of [swapUSDCtoESC]; [s] holds the [swapAmount] of the
    closure, [deployed_token] is [deployed.token]. *)
Definition swapUSDCtoESC_try (s : AppState) (deployed_token : string) : M unit :=
  signer <- perform getSigner ;;
  usdcAmount <- lift (Ethers.parseUnits (swapAmount s) 18) ;;
  tx <- perform (token_swap deployed_token usdcAmount) ;;
  perform (tx_wait tx) ;;;
  let escAmount := usdcAmount * 100000 in (* SWAP_RATE = 100000 *)
  shown <- lift (Ethers.formatUnits escAmount 18) ;;
  pushLog {| type := success;
             message := "Swapped " ++ swapAmount s ++ " USDC to " ++ shown ++ " ESC";
             href := Some (txLink (hash tx)) |} ;;;
  setSwapAmount "" ;;;
  (* Refresh balance *)
  bal <- perform (getBalance (signer_address signer)) ;;
  shown_bal <- lift (Ethers.formatUnits bal 18) ;;
  setNativeBalance shown_bal.

Definition swapUSDCtoESC : M unit :=
  closure (fun s =>
    match provider s, token (deployed s) with
    | Some _, Some deployed_token =>
        if orb (negb (truthy deployed_token)) (negb (truthy (swapAmount s)))
        then ret tt
        else
          setBusy true ;;;
          finally (try_catch (swapUSDCtoESC_try s deployed_token) logError) (setBusy false)
    | _, _ => ret tt
    end).

(** ** The controls of the page

    A handler runs only through its control: a button or input that is
    rendered and not [disabled]. *)

Inductive Control :=
| ConnectButton
| SwitchToArcButton
| DeployNftButton
| MintNftButton
| DeployTokenButton
| MintTokenButton
| RecipientInput (typed : string)
| MyselfButton
| SendAmountInput (typed : string)
| SendButton
| SwapAmountInput (typed : string)
| SwapButton.

(** [!x] for the nullable [provider]. *)
Definition no_provider (s : AppState) : bool :=
  match provider s with Some _ => false | None => true end.

Definition rendered (c : Control) (s : AppState) : bool :=
  match c with
  | SwitchToArcButton => negb (no_provider s)
  | _ => true
  end.

Definition disabled (c : Control) (s : AppState) : bool :=
  match c with
  | ConnectButton => negb (no_provider s)
  | SwitchToArcButton => false
  | DeployNftButton => orb (no_provider s) (busy s)
  | MintNftButton =>
      orb (orb (no_provider s) (negb (truthy_opt (nft (deployed s))))) (busy s)
  | DeployTokenButton => orb (no_provider s) (busy s)
  | MintTokenButton =>
      orb (orb (no_provider s) (negb (truthy_opt (token (deployed s))))) (busy s)
  | RecipientInput _ => orb (no_provider s) (busy s)
  | MyselfButton => orb (no_provider s) (busy s)
  | SendAmountInput _ => orb (no_provider s) (busy s)
  | SendButton =>
      orb (orb (orb (no_provider s) (negb (truthy (sendRecipient s))))
               (negb (truthy (sendAmount s)))) (busy s)
  | SwapAmountInput _ =>
      orb (orb (no_provider s) (negb (truthy_opt (token (deployed s))))) (busy s)
  | SwapButton =>
      orb (orb (orb (no_provider s) (negb (truthy_opt (token (deployed s)))))
               (negb (truthy (swapAmount s)))) (busy s)
  end.

(** The [onClick] or [onChange] of a control. *)
Definition handler (c : Control) : M unit :=
  match c with
  | ConnectButton => connect
  | SwitchToArcButton =>
      closure (fun s =>
        match provider s with
        | Some prov => ensureArcNetwork prov ;;; ret tt
        | None => ret tt
        end)
  | DeployNftButton => deployNFT
  | MintNftButton => mintNft
  | DeployTokenButton => deployToken
  | MintTokenButton => mintToken
  | RecipientInput typed => setSendRecipient typed
  | MyselfButton =>
      closure (fun s =>
        if truthy (signerAddress s) then setSendRecipient (signerAddress s) else ret tt)
  | SendAmountInput typed => setSendAmount typed
  | SendButton => sendUSDC
  | SwapAmountInput typed => setSwapAmount typed
  | SwapButton => swapUSDCtoESC
  end.

(** A user gesture on a control: nothing happens on a control that is not
    rendered or is disabled. *)
Definition trigger (c : Control) : M unit :=
  fun w =>
    if andb (rendered c (app w)) (negb (disabled c (app w)))
    then handler c w
    else (Resolved tt, w).

(** A session: gestures handled one after the other, each to completion; a
    rejection that escapes a handler is dropped by the event loop. *)
Fixpoint session (gestures : list Control) (w : World) : World :=
  match gestures with
  | [] => w
  | c :: rest => session rest (snd (trigger c w))
  end.

(** The six actions gated by [busy]. *)
Inductive Action :=
| DeployNFT | DeployToken | MintNft | MintToken | SendUSDC | SwapUSDCtoESC.

Definition run_action (a : Action) : M unit :=
  match a with
  | DeployNFT => deployNFT
  | DeployToken => deployToken
  | MintNft => mintNft
  | MintToken => mintToken
  | SendUSDC => sendUSDC
  | SwapUSDCtoESC => swapUSDCtoESC
  end.

Definition action_button (a : Action) : Control :=
  match a with
  | DeployNFT => DeployNftButton
  | DeployToken => DeployTokenButton
  | MintNft => MintNftButton
  | MintToken => MintTokenButton
  | SendUSDC => SendButton
  | SwapUSDCtoESC => SwapButton
  end.

(** The early [return] of an action: [true] when the action goes on. *)
Definition preflight (a : Action) (s : AppState) : bool :=
  negb (no_provider s) &&
  match a with
  | DeployNFT | DeployToken => true
  | MintNft => truthy_opt (nft (deployed s))
  | MintToken => truthy_opt (token (deployed s))
  | SendUSDC => truthy (sendRecipient s) && truthy (sendAmount s)
  | SwapUSDCtoESC => truthy_opt (token (deployed s)) && truthy (swapAmount s)
  end.

(** The [try] block of an action, for the state [s] it closes over. *)
Definition try_block (a : Action) (s : AppState) : M unit :=
  match a with
  | DeployNFT => deployNFT_try
  | DeployToken => deployToken_try
  | MintNft => mintNft_try (match nft (deployed s) with Some x => x | None => "" end)
  | MintToken => mintToken_try (match token (deployed s) with Some x => x | None => "" end)
  | SendUSDC => sendUSDC_try s
  | SwapUSDCtoESC =>
      swapUSDCtoESC_try s (match token (deployed s) with Some x => x | None => "" end)
  end.

End Handlers.

(** ** Vocabulary of the properties *)

(** [answers env tr evs]: asked the requests of [evs] one after the other
    from the trace [tr], the environment settles them as [evs] records. *)
Fixpoint answers (env : Env) (tr : list Event) (evs : list Event) : Prop :=
  match evs with
  | [] => True
  | Ev c r :: rest => env _ tr c = r /\ answers env (tr ++ [Ev c r]) rest
  end.

(** The deploy action of a contract kind. *)
Definition deploy (env : Env) (k : ContractKind) : M unit :=
  match k with
  | SimpleNFT => deployNFT env
  | EscbaseToken => deployToken env
  end.

Definition contract_name (k : ContractKind) : string :=
  match k with
  | SimpleNFT => "SimpleNFT"
  | EscbaseToken => "EscbaseToken"
  end.

(** [DeployedContracts[kind]] *)
Definition deployed_at (k : ContractKind) (d : DeployedAddresses) : option string :=
  match k with
  | SimpleNFT => nft d
  | EscbaseToken => token d
  end.

(** [{ ...prev, kind: address }] *)
Definition with_address (k : ContractKind) (address : string)
    (prev : DeployedAddresses) : DeployedAddresses :=
  match k with
  | SimpleNFT => {| nft := Some address; token := token prev |}
  | EscbaseToken => {| nft := nft prev; token := Some address |}
  end.

Definition error_entry (msg : string) : LogItem :=
  {| type := error; message := msg; href := None |}.

Definition kind_eqb (a b : ContractKind) : bool :=
  match a, b with
  | SimpleNFT, SimpleNFT | EscbaseToken, EscbaseToken => true
  | _, _ => false
  end.

Definition Deployment_eqb (a b : Deployment) : bool :=
  String.eqb (target a) (target b) &&
  match deploymentTransaction a, deploymentTransaction b with
  | Some x, Some y => String.eqb (hash x) (hash y)
  | None, None => true
  | _, _ => false
  end.

(** The contract object of a resolved [factory.deploy()] of kind [k]. *)
Definition deployment_of (k : ContractKind) (e : Event) : option Deployment :=
  match e with
  | Ev c r =>
      match c in Call T return Outcome T -> option Deployment with
      | factory_deploy k' _ =>
          fun r => match r with
                   | Resolved d => if kind_eqb k k' then Some d else None
                   | Rejected _ => None
                   end
      | _ => fun _ => None
      end r
  end.

(** A resolved [waitForDeployment()] on the contract object [d]. *)
Definition confirms (d : Deployment) (e : Event) : bool :=
  match e with
  | Ev c r =>
      match c in Call T return Outcome T -> bool with
      | waitForDeployment d' =>
          fun r => match r with
                   | Resolved _ => Deployment_eqb d d'
                   | Rejected _ => false
                   end
      | _ => fun _ => false
      end r
  end.

(** The first deployment of kind [k] in [tr] that reached confirmation. *)
Fixpoint confirmation (k : ContractKind) (tr : list Event) : option Deployment :=
  match tr with
  | [] => None
  | e :: rest =>
      match deployment_of k e with
      | Some d => if existsb (confirms d) rest then Some d else confirmation k rest
      | None => confirmation k rest
      end
  end.

(** [address] is the address of a deployment of kind [k] that [tr] shows
    sent and then confirmed. *)
Fixpoint confirmed (k : ContractKind) (address : string) (tr : list Event) : bool :=
  match tr with
  | [] => false
  | e :: rest =>
      match deployment_of k e with
      | Some d => String.eqb (target d) address && existsb (confirms d) rest
      | None => false
      end
      || confirmed k address rest
  end.

(** Every run of [m] relates the world before to the world after by [R]. *)
Definition steps (R : World -> World -> Prop) {A} (m : M A) : Prop :=
  forall w, R w (exec m w).

(** The world only gains requests, and [deployed] is left alone. *)
Definition keeps_deployed (w w' : World) : Prop :=
  deployed (app w') = deployed (app w)
  /\ exists new, trace w' = (trace w ++ new)%list.

(** The world only gains requests, none of them a network request. *)
Definition no_network_request (w w' : World) : Prop :=
  exists new, trace w' = (trace w ++ new)%list
              /\ forallb (fun e => negb (is_network_request e)) new = true.

(** Every set entry of [deployed] is backed by a confirmed deployment. *)
Definition deployed_confirmed (w : World) : Prop :=
  forall k address,
    deployed_at k (deployed (app w)) = Some address ->
    confirmed k address (trace w) = true.

(** The entries a deploy action logs. *)
Definition deploy_success_entry (k : ContractKind) (address : string) : LogItem :=
  {| type := success;
     message := "Deployed " ++ contract_name k ++ " at " ++ address;
     href := Some (addressLink address) |}.

Definition deployment_tx_entry (h : string) : LogItem :=
  {| type := info; message := "Deployment tx"; href := Some (txLink h) |}.

(** The entry logged under [if (deployTx?.hash)], if any. *)
Definition deployment_tx_entries (d : Deployment) : list LogItem :=
  match deploymentTransaction d with
  | Some tx => if truthy (hash tx) then [deployment_tx_entry (hash tx)] else []
  | None => []
  end.

Definition mint_token_success_entry (tx : Tx) : LogItem :=
  {| type := success; message := "Minted 100 ESC to owner";
     href := Some (txLink (hash tx)) |}.

(** A request that shows the wallet on the target network: a network id
    read that matches, or a granted switch request. *)
Definition is_reconciliation (e : Event) : bool :=
  match e with
  | Ev c r =>
      match c in Call T return Outcome T -> bool with
      | eth_chainId =>
          fun r => match r with
                   | Resolved current => is_target current
                   | Rejected _ => false
                   end
      | wallet_switchEthereumChain id =>
          fun r => match r with
                   | Resolved _ => String.eqb id ARC_CHAIN_ID_HEX
                   | Rejected _ => false
                   end
      | _ => fun _ => false
      end r
  end.

Definition reconciled (tr : list Event) : bool := existsb is_reconciliation tr.

(** The world only gains requests. *)
Definition extends (w w' : World) : Prop :=
  exists new, trace w' = (trace w ++ new)%list.

(** The world only gains requests, and [provider] is left alone. *)
Definition keeps_provider (w w' : World) : Prop :=
  provider (app w') = provider (app w) /\ extends w w'.

(** A stored provider is backed by a reconciliation that succeeded. *)
Definition provider_reconciled (w : World) : Prop :=
  no_provider (app w) = false -> reconciled (trace w) = true.

(** ** Further vocabulary: what a handler leaves alone *)

(** The log only gains entries, put in front. *)
Definition log_grows (w w' : World) : Prop :=
  exists pre, logs (app w') = (pre ++ logs (app w))%list.

(** Nothing changes but the log, which gains entries in front, and the
    trace, which gains requests. *)
Definition only_logs (w w' : World) : Prop :=
  log_grows w w'
  /\ provider (app w') = provider (app w)
  /\ signerAddress (app w') = signerAddress (app w)
  /\ busy (app w') = busy (app w)
  /\ deployed (app w') = deployed (app w)
  /\ nativeBalance (app w') = nativeBalance (app w)
  /\ sendRecipient (app w') = sendRecipient (app w)
  /\ sendAmount (app w') = sendAmount (app w)
  /\ swapAmount (app w') = swapAmount (app w)
  /\ alerts w' = alerts w
  /\ extends w w'.

(** An entry of [deployed] that is set stays set. *)
Definition deployed_kept (w w' : World) : Prop :=
  forall k, deployed_at k (deployed (app w)) <> None ->
            deployed_at k (deployed (app w')) <> None.

Definition is_chain_id_read (e : Event) : bool :=
  match e with
  | Ev c _ => match c with eth_chainId => true | _ => false end
  end.

(** A request that submits a transaction. *)
Definition is_submission (e : Event) : bool :=
  match e with
  | Ev c _ =>
      match c with
      | factory_deploy _ _ | nft_mint _ _ | token_mint _ _ _
      | token_swap _ _ | sendTransaction _ _ _ => true
      | _ => false
      end
  end.


(** The [(contract, recipient, amount)] of the token mint requests. *)
Fixpoint token_mints (tr : list Event) : list (string * string * Z) :=
  match tr with
  | [] => []
  | Ev c _ :: rest =>
      match c with
      | token_mint addr to amount => (addr, to, amount) :: token_mints rest
      | _ => token_mints rest
      end
  end.

(** The [(contract, recipient)] of the NFT mint requests. *)
Fixpoint nft_mints (tr : list Event) : list (string * string) :=
  match tr with
  | [] => []
  | Ev c _ :: rest =>
      match c with
      | nft_mint addr to => (addr, to) :: nft_mints rest
      | _ => nft_mints rest
      end
  end.

(** The [(contract, value)] of the swap requests. *)
Fixpoint swap_calls (tr : list Event) : list (string * Z) :=
  match tr with
  | [] => []
  | Ev c _ :: rest =>
      match c with
      | token_swap addr value => (addr, value) :: swap_calls rest
      | _ => swap_calls rest
      end
  end.

(** The [(recipient, value)] of the native transfers. *)
Fixpoint transfers (tr : list Event) : list (string * Z) :=
  match tr with
  | [] => []
  | Ev c _ :: rest =>
      match c with
      | sendTransaction _ to value => (to, value) :: transfers rest
      | _ => transfers rest
      end
  end.

(** The owners that resolved [owner()] reads returned. *)
Fixpoint owner_answers (tr : list Event) : list string :=
  match tr with
  | [] => []
  | Ev c r :: rest =>
      match c in Call T return Outcome T -> list string with
      | contract_owner _ _ =>
          fun r => match r with
                   | Resolved o => o :: owner_answers rest
                   | Rejected _ => owner_answers rest
                   end
      | _ => fun _ => owner_answers rest
      end r
  end.

Definition connected_entry : LogItem :=
  {| type := success; message := "Wallet connected and on Arc Testnet.";
     href := None |}.

(** The thrown value of the last request, when that request was rejected. *)
Fixpoint last_rejection (tr : list Event) : option Thrown :=
  match tr with
  | [] => None
  | [Ev _ r] => match r with Rejected e => Some e | Resolved _ => None end
  | _ :: rest => last_rejection rest
  end.

(** ** Concrete environments

    [scripted chain rejections] resolves every request with a fixed answer,
    but for the requests whose position in the trace is listed in
    [rejections]; [chain n] is the network id read at position [n]. *)

Module Script.

Definition the_signer : Signer := {| signer_address := "0x51a9e2C0ffee51a9e2C0ffee51a9e2C0ffee0001" |}.

Definition the_deployment : Deployment :=
  {| target := "0xAAA0000000000000000000000000000000000AAA";
     deploymentTransaction := Some {| hash := "0xd0d0" |} |}.

Definition the_tx : Tx := {| hash := "0x7a7a" |}.

Definition answer (chain : option string) {T} (c : Call T) : T :=
  match c in Call T return T with
  | eth_requestAccounts => tt
  | eth_chainId => chain
  | wallet_switchEthereumChain _ => tt
  | wallet_addEthereumChain _ => tt
  | getSigner => the_signer
  | getBalance _ => 2500000000000000000
  | factory_deploy _ _ => the_deployment
  | waitForDeployment _ => tt
  | contract_owner _ _ => signer_address the_signer
  | nft_mint _ _ => the_tx
  | token_mint _ _ _ => the_tx
  | token_swap _ _ => the_tx
  | sendTransaction _ _ _ => the_tx
  | tx_wait _ => tt
  end.

Fixpoint rejection_at (n : nat) (rejections : list (nat * Thrown)) : option Thrown :=
  match rejections with
  | [] => None
  | (m, e) :: rest => if Nat.eqb n m then Some e else rejection_at n rest
  end.

Definition scripted (chain : nat -> option string) (rejections : list (nat * Thrown)) : Env :=
  fun T tr c =>
    match rejection_at (List.length tr) rejections with
    | Some e => Rejected e
    | None => Resolved (answer (chain (List.length tr)) c)
    end.

(** A wallet already on Arc Testnet, every request granted. *)
Definition on_arc : Env := scripted (fun _ => Some ARC_CHAIN_ID_HEX) [].

Definition provider_error (c : Z) (msg : string) : Thrown :=
  Obj {| err_code := Some c; err_shortMessage := None;
         err_message := Some msg; err_toString := "Error: " ++ msg |}.

Definition user_rejected : Thrown :=
  provider_error 4001 "User rejected the request.".

Definition unrecognized : Thrown :=
  provider_error 4902 "Unrecognized chain ID 0x4cef52.".

(** A message of 280 code units. *)
Definition long_text : string := String.concat "" (repeat "timeout " 35).

(** The state after a successful [connect] on a fresh page. *)
Definition connected : World := session on_arc true [ConnectButton] initialWorld.

End Script.

(** * Properties *)

Import Script.

(** ** Network reconciliation *)

Lemma is_target_lower (current : string) :
  toLowerCase current = toLowerCase ARC_CHAIN_ID_HEX ->
  is_target (Some current) = true.
Proof.
  intros H. unfold is_target. rewrite H. reflexivity.
Qed.

(** C6: when the network id read from the wallet equals the target up to
    letter case, [ensureArcNetwork] returns [true] having issued nothing but
    that read: no switch-network request, no add-network request, no log
    entry, no state change. *)
Theorem ensureArcNetwork_on_target
    (env : Env) (prov : BrowserProvider) (w : World) (current : string) :
  env _ (trace w) eth_chainId = Resolved (Some current) ->
  toLowerCase current = toLowerCase ARC_CHAIN_ID_HEX ->
  ensureArcNetwork env prov w =
    (Resolved true,
     {| app := app w;
        trace := trace w ++ [Ev eth_chainId (Resolved (Some current))];
        alerts := alerts w |})
  /\ count is_switch (new_events w (exec (ensureArcNetwork env prov) w)) = 0%nat
  /\ count is_add (new_events w (exec (ensureArcNetwork env prov) w)) = 0%nat.
Proof.
  intros Hread Hsame.
  assert (Hrun : ensureArcNetwork env prov w =
    (Resolved true,
     {| app := app w;
        trace := trace w ++ [Ev eth_chainId (Resolved (Some current))];
        alerts := alerts w |})).
  { unfold ensureArcNetwork, try_catch, bind, perform. rewrite Hread.
    rewrite (is_target_lower current Hsame). reflexivity. }
  split; [exact Hrun|].
  unfold exec, new_events. rewrite Hrun. cbn [snd trace].
  rewrite skipn_app, skipn_all, Nat.sub_diag. split; reflexivity.
Qed.

Lemma ensureArcNetwork_on_target_witness :
  ensureArcNetwork (scripted (fun _ => Some "0x4CEF52") []) WindowEthereum initialWorld =
    (Resolved true,
     {| app := initialState;
        trace := [Ev eth_chainId (Resolved (Some "0x4CEF52"))];
        alerts := [] |})
  /\ count is_switch (new_events initialWorld
       (exec (ensureArcNetwork (scripted (fun _ => Some "0x4CEF52") []) WindowEthereum)
             initialWorld)) = 0%nat
  /\ count is_add (new_events initialWorld
       (exec (ensureArcNetwork (scripted (fun _ => Some "0x4CEF52") []) WindowEthereum)
             initialWorld)) = 0%nat.
Proof.
  apply (ensureArcNetwork_on_target
           (scripted (fun _ => Some "0x4CEF52") []) WindowEthereum initialWorld "0x4CEF52");
    reflexivity.
Defined.

Lemma new_events_app (w w' : World) (l : list Event) :
  trace w' = (trace w ++ l)%list -> new_events w w' = l.
Proof.
  intros H. unfold new_events. rewrite H.
  rewrite skipn_app, skipn_all, Nat.sub_diag. reflexivity.
Qed.

(** C7, as the code has it: after an unrecognized-network answer to the
    switch request, exactly one add-network request carrying [ARC_PARAMS] is
    issued; the switch request is retried exactly once when that add request
    is granted and not at all when it is refused, and nothing follows the
    retry.  The reconciliation succeeds exactly when both are granted. *)
Theorem ensureArcNetwork_unrecognized_chain
    (env : Env) (prov : BrowserProvider) (w : World)
    (current : option string) (err : Thrown) :
  let switch := wallet_switchEthereumChain ARC_CHAIN_ID_HEX in
  let add := wallet_addEthereumChain ARC_PARAMS in
  let t1 := (trace w ++ [Ev eth_chainId (Resolved current)])%list in
  let t2 := (t1 ++ [Ev switch (Rejected err)])%list in
  let added := env _ t2 add in
  let t3 := (t2 ++ [Ev add added])%list in
  let retried := env _ t3 switch in
  env _ (trace w) eth_chainId = Resolved current ->
  is_target current = false ->
  env _ t1 switch = Rejected err ->
  unrecognized_chain err = true ->
  trace (exec (ensureArcNetwork env prov) w) =
    match added with
    | Resolved _ => (t3 ++ [Ev switch retried])%list
    | Rejected _ => t3
    end
  /\ count is_add (new_events w (exec (ensureArcNetwork env prov) w)) = 1%nat
  /\ count is_switch (new_events w (exec (ensureArcNetwork env prov) w)) =
       match added with Resolved _ => 2%nat | Rejected _ => 1%nat end
  /\ result (ensureArcNetwork env prov) w =
       Resolved match added, retried with
                | Resolved _, Resolved _ => true
                | _, _ => false
                end.
Proof.
  intros switch add t1 t2 added t3 retried Hread Hother Hswitch Hunrec.
  assert (Hrun : ensureArcNetwork env prov w =
    match added with
    | Resolved _ =>
        match retried with
        | Resolved _ =>
            (Resolved true,
             {| app := app w; trace := (t3 ++ [Ev switch retried])%list; alerts := alerts w |})
        | Rejected e =>
            (Resolved false,
             exec (pushLog {| type := error;
                              message := "Failed to switch to Arc Testnet: "
                                         ++ message_or_unknown e;
                              href := None |})
                  {| app := app w; trace := (t3 ++ [Ev switch retried])%list; alerts := alerts w |})
        end
    | Rejected e =>
        (Resolved false,
         exec (pushLog {| type := error;
                          message := "Failed to switch to Arc Testnet: "
                                     ++ message_or_unknown e;
                          href := None |})
              {| app := app w; trace := t3; alerts := alerts w |})
    end).
  { unfold ensureArcNetwork, try_catch, bind, perform. rewrite Hread, Hother.
    cbn [trace app alerts]. fold t1. fold switch. rewrite Hswitch, Hunrec.
    cbn [trace app alerts]. fold t2. fold add. fold added.
    destruct added as [u|e] eqn:Hadded.
    - cbn [trace app alerts]. fold t3. fold retried.
      destruct retried as [u'|e'] eqn:Hretried; reflexivity.
    - reflexivity. }
  assert (Htrace : trace (exec (ensureArcNetwork env prov) w) =
    match added with
    | Resolved _ => (t3 ++ [Ev switch retried])%list
    | Rejected _ => t3
    end).
  { unfold exec. rewrite Hrun.
    destruct added; [destruct retried|]; reflexivity. }
  split; [exact Htrace|].
  assert (Hnew : new_events w (exec (ensureArcNetwork env prov) w) =
    ([Ev eth_chainId (Resolved current); Ev switch (Rejected err); Ev add added]
     ++ match added with Resolved _ => [Ev switch retried] | Rejected _ => [] end)%list).
  { apply new_events_app. rewrite Htrace. unfold t3, t2, t1.
    destruct added; rewrite <- ?app_assoc; reflexivity. }
  rewrite Hnew.
  split; [destruct added; reflexivity|].
  split; [destruct added; reflexivity|].
  unfold result. rewrite Hrun.
  destruct added; [destruct retried|]; reflexivity.
Qed.

Lemma ensureArcNetwork_unrecognized_chain_witness :
  let env := scripted (fun _ => Some "0x1") [(1%nat, unrecognized)] in
  count is_add (new_events initialWorld
                  (exec (ensureArcNetwork env WindowEthereum) initialWorld)) = 1%nat
  /\ count is_switch (new_events initialWorld
                        (exec (ensureArcNetwork env WindowEthereum) initialWorld)) = 2%nat
  /\ result (ensureArcNetwork env WindowEthereum) initialWorld = Resolved true.
Proof.
  intros env.
  apply (ensureArcNetwork_unrecognized_chain
           env WindowEthereum initialWorld (Some "0x1") unrecognized);
    reflexivity.
Defined.

(** C7 as stated fails: the wallet does not know the chain, the user then
    refuses the add-network prompt; the one add request is followed by no
    retry of the switch request. *)
Lemma ensureArcNetwork_add_refused_no_retry :
  let env := scripted (fun _ => Some "0x1") [(1%nat, unrecognized); (2%nat, user_rejected)] in
  let w' := exec (ensureArcNetwork env WindowEthereum) initialWorld in
  trace w' =
    [Ev eth_chainId (Resolved (Some "0x1"));
     Ev (wallet_switchEthereumChain ARC_CHAIN_ID_HEX) (Rejected unrecognized);
     Ev (wallet_addEthereumChain ARC_PARAMS) (Rejected user_rejected)]
  /\ unrecognized_chain unrecognized = true
  /\ count is_add (trace w') = 1%nat
  /\ count is_switch (trace w') = 1%nat
  /\ ~ (count is_switch (trace w') = 2%nat).
Proof.
  cbv zeta. repeat split; try reflexivity.
  vm_compute. discriminate.
Qed.

(** ** The shape shared by the six actions *)

Lemma guarded_run (body : M unit) (w : World) :
  finally (try_catch body (logError)) (setBusy false) w =
    match body w with
    | (Resolved _, w1) => (Resolved tt, exec (setBusy false) w1)
    | (Rejected e, w1) => (Resolved tt, exec (setBusy false) (exec (logError e) w1))
    end.
Proof.
  unfold finally, try_catch.
  destruct (body w) as [[[]|e] w1]; reflexivity.
Qed.

Lemma run_action_shape (env : Env) (a : Action) (w : World) :
  run_action env a w =
    if preflight a (app w)
    then finally (try_catch (try_block env a (app w)) logError) (setBusy false)
                 (exec (setBusy true) w)
    else (Resolved tt, w).
Proof.
  destruct w as [s tr al].
  destruct a; unfold run_action, preflight, no_provider, try_block,
    deployNFT, deployToken, mintNft, mintToken, sendUSDC, swapUSDCtoESC, closure;
    cbn [app]; destruct (provider s); cbn [negb andb]; try reflexivity.
  - destruct (nft (deployed s)) as [x|]; [|reflexivity].
    cbn [truthy_opt]. destruct (truthy x); reflexivity.
  - destruct (token (deployed s)) as [x|]; [|reflexivity].
    cbn [truthy_opt]. destruct (truthy x); reflexivity.
  - destruct (truthy (sendRecipient s)), (truthy (sendAmount s)); reflexivity.
  - destruct (token (deployed s)) as [x|]; [|reflexivity].
    cbn [truthy_opt]. destruct (truthy x), (truthy (swapAmount s)); reflexivity.
Qed.

Lemma disabled_without_preflight (a : Action) (s : AppState) :
  disabled (action_button a) s = orb (negb (preflight a s)) (busy s).
Proof.
  destruct a; unfold disabled, preflight, action_button;
    destruct (no_provider s); cbn [negb andb orb]; try reflexivity;
    repeat match goal with
           | |- context [truthy_opt ?x] => destruct (truthy_opt x); cbn [negb andb orb]
           | |- context [truthy ?x] => destruct (truthy x); cbn [negb andb orb]
           end; reflexivity.
Qed.

(** ** The busy gate *)

(** C2: a gesture on the control of any of the six actions while [busy] is
    set does nothing at all: the world is returned as it was, so the log
    keeps its length, no request is issued, and the rest of the session
    goes on as if the gesture had not happened (nothing is queued). *)
Theorem busy_trigger_is_noop
    (env : Env) (window_ethereum : bool) (a : Action) (w : World) :
  busy (app w) = true ->
  trigger env window_ethereum (action_button a) w = (Resolved tt, w)
  /\ List.length (logs (app (exec (trigger env window_ethereum (action_button a)) w)))
     = List.length (logs (app w))
  /\ new_events w (exec (trigger env window_ethereum (action_button a)) w) = []
  /\ forall rest,
       session env window_ethereum (action_button a :: rest) w
       = session env window_ethereum rest w.
Proof.
  intros Hbusy.
  assert (Hrun : trigger env window_ethereum (action_button a) w = (Resolved tt, w)).
  { unfold trigger. rewrite disabled_without_preflight, Hbusy, orb_true_r, andb_false_r.
    reflexivity. }
  split; [exact Hrun|].
  unfold exec. cbn [session]. rewrite Hrun. cbn [snd].
  split; [reflexivity|]. split; [|reflexivity].
  unfold new_events. apply skipn_all.
Qed.

Lemma busy_trigger_is_noop_witness :
  let w := exec (setBusy true) connected in
  trigger on_arc true (action_button DeployNFT) w = (Resolved tt, w)
  /\ List.length (logs (app (exec (trigger on_arc true (action_button DeployNFT)) w)))
     = List.length (logs (app w))
  /\ new_events w (exec (trigger on_arc true (action_button DeployNFT)) w) = []
  /\ forall rest,
       session on_arc true (action_button DeployNFT :: rest) w
       = session on_arc true rest w.
Proof.
  intros w.
  apply (busy_trigger_is_noop on_arc true DeployNFT w).
  reflexivity.
Defined.

(** ** Composing handlers *)

Section Steps.

Variable R : World -> World -> Prop.
Hypothesis R_refl : forall w, R w w.
Hypothesis R_trans : forall a b c, R a b -> R b c -> R a c.

Lemma steps_ret {A} (a : A) : steps R (ret a).
Proof. intro w. apply R_refl. Qed.

Lemma steps_throw {A} (e : Thrown) : steps R (@throw A e).
Proof. intro w. apply R_refl. Qed.

Lemma steps_lift {A} (o : Outcome A) : steps R (lift o).
Proof. intro w. apply R_refl. Qed.

Lemma steps_bind {A B} (m : M A) (k : A -> M B) :
  steps R m -> (forall a, steps R (k a)) -> steps R (bind m k).
Proof.
  intros Hm Hk w. unfold exec, bind.
  specialize (Hm w). unfold exec in Hm.
  destruct (m w) as [[a|e] w1]; cbn [snd] in *.
  - eapply R_trans; [exact Hm|]. apply Hk.
  - exact Hm.
Qed.

Lemma steps_try_catch {A} (body : M A) (h : Thrown -> M A) :
  steps R body -> (forall e, steps R (h e)) -> steps R (try_catch body h).
Proof.
  intros Hb Hh w. unfold exec, try_catch.
  specialize (Hb w). unfold exec in Hb.
  destruct (body w) as [[a|e] w1]; cbn [snd] in *.
  - exact Hb.
  - eapply R_trans; [exact Hb|]. apply Hh.
Qed.

Lemma steps_finally {A} (body : M A) (fin : M unit) :
  steps R body -> steps R fin -> steps R (finally body fin).
Proof.
  intros Hb Hf w. unfold exec, finally.
  specialize (Hb w). unfold exec in Hb.
  destruct (body w) as [r w1]. cbn [snd] in *.
  specialize (Hf w1). unfold exec in Hf.
  destruct (fin w1) as [[u|e] w2]; cbn [snd] in *;
    eapply R_trans; eassumption.
Qed.

Lemma steps_closure {A} (k : AppState -> M A) :
  (forall s, steps R (k s)) -> steps R (closure k).
Proof. intros Hk w. apply Hk. Qed.

End Steps.

(** Breaks a handler into its requests and state updates. *)
Ltac handler_steps refl trans :=
  repeat match goal with
         | |- forall _, _ => intro
         | |- steps _ (ret _) => apply (steps_ret _ refl)
         | |- steps _ (throw _) => apply (steps_throw _ refl)
         | |- steps _ (lift _) => apply (steps_lift _ refl)
         | |- steps _ (bind _ _) => apply (steps_bind _ trans)
         | |- steps _ (try_catch _ _) => apply (steps_try_catch _ trans)
         | |- steps _ (finally _ _) => apply (steps_finally _ trans)
         | |- steps _ (closure _) => apply (steps_closure _)
         | |- steps _ (match ?x with _ => _ end) => destruct x
         | |- steps _ (let x := _ in _) => cbv zeta
         end.

Lemma keeps_deployed_refl (w : World) : keeps_deployed w w.
Proof. split; [reflexivity|]. exists []. symmetry. apply app_nil_r. Qed.

Lemma keeps_deployed_trans (a b c : World) :
  keeps_deployed a b -> keeps_deployed b c -> keeps_deployed a c.
Proof.
  intros [Hd1 [n1 Ht1]] [Hd2 [n2 Ht2]]. split; [congruence|].
  exists (n1 ++ n2)%list. rewrite Ht2, Ht1. symmetry. apply app_assoc.
Qed.

Lemma keeps_deployed_perform (env : Env) {T} (c : Call T) :
  steps keeps_deployed (perform env c).
Proof. intro w. split; [reflexivity|]. eexists. reflexivity. Qed.

Lemma no_network_request_refl (w : World) : no_network_request w w.
Proof. exists []. split; [symmetry; apply app_nil_r | reflexivity]. Qed.

Lemma no_network_request_trans (a b c : World) :
  no_network_request a b -> no_network_request b c -> no_network_request a c.
Proof.
  intros [n1 [Ht1 Hn1]] [n2 [Ht2 Hn2]].
  exists (n1 ++ n2)%list. split.
  - rewrite Ht2, Ht1. symmetry. apply app_assoc.
  - rewrite forallb_app, Hn1, Hn2. reflexivity.
Qed.

Lemma no_network_request_perform (env : Env) {T} (c : Call T) :
  is_network_request (Ev c (env T [] c)) = false ->
  steps no_network_request (perform env c).
Proof.
  intros Hc w. eexists. split; [reflexivity|].
  cbn [forallb]. rewrite andb_true_r.
  destruct c; cbn in Hc |- *; try reflexivity; discriminate.
Qed.

Lemma no_network_request_update (f : AppState -> AppState) :
  steps no_network_request (update f).
Proof.
  intro w. exists []. split; [|reflexivity].
  cbn. symmetry. apply app_nil_r.
Qed.

Lemma try_block_no_network_request (env : Env) (a : Action) (s : AppState) :
  steps no_network_request (try_block env a s).
Proof.
  destruct a; unfold try_block, deployNFT_try, deployToken_try, mintNft_try,
    mintToken_try, sendUSDC_try, swapUSDCtoESC_try, pushLog, setDeployed, setLogs,
    setSendRecipient, setSendAmount, setSwapAmount, setNativeBalance;
    handler_steps no_network_request_refl no_network_request_trans;
    match goal with
    | |- steps _ (update _) => apply no_network_request_update
    | |- steps _ (perform _ _) => apply no_network_request_perform; reflexivity
    end.
Qed.

Lemma run_action_no_network_request (env : Env) (a : Action) :
  steps no_network_request (run_action env a).
Proof.
  intro w. unfold exec. rewrite run_action_shape.
  destruct (preflight a (app w)); [|apply no_network_request_refl].
  eapply no_network_request_trans with (b := exec (setBusy true) w).
  - apply no_network_request_update.
  - apply (steps_finally _ no_network_request_trans).
    + apply (steps_try_catch _ no_network_request_trans).
      * apply try_block_no_network_request.
      * intro e. apply no_network_request_update.
    + apply no_network_request_update.
Qed.

(** ** Deployment *)

Lemma deploy_confirmed_run
    (env : Env) (k : ContractKind) (w : World) (sg : Signer) (d : Deployment) :
  no_provider (app w) = false ->
  answers env (trace w)
    [Ev getSigner (Resolved sg);
     Ev (factory_deploy k sg) (Resolved d);
     Ev (waitForDeployment d) (Resolved tt)] ->
  result (deploy env k) w = Resolved tt
  /\ trace (exec (deploy env k) w) =
       (trace w ++ [Ev getSigner (Resolved sg);
                    Ev (factory_deploy k sg) (Resolved d);
                    Ev (waitForDeployment d) (Resolved tt)])%list
  /\ logs (app (exec (deploy env k) w)) =
       (deployment_tx_entries d
        ++ deploy_success_entry k (target d) :: logs (app w))%list
  /\ deployed (app (exec (deploy env k) w)) =
       with_address k (target d) (deployed (app w))
  /\ provider (app (exec (deploy env k) w)) = provider (app w)
  /\ busy (app (exec (deploy env k) w)) = false.
Proof.
  intros Hprov [H1 [H2 [H3 _]]].
  unfold no_provider in Hprov.
  destruct (provider (app w)) as [p|] eqn:Hp; [clear Hprov|discriminate].
  unfold result, exec, deployment_tx_entries.
  destruct (deploy env k w) as [r w'] eqn:Hrun. revert Hrun.
  destruct k;
    unfold deploy, deployNFT, deployToken, closure; rewrite Hp;
    unfold finally, try_catch, deployNFT_try, deployToken_try, bind, perform;
    cbn [setBusy update trace app alerts]; rewrite H1;
    cbn [trace app alerts]; rewrite H2;
    cbn [trace app alerts]; rewrite H3;
    (destruct (deploymentTransaction d) as [tx|];
     [destruct (truthy (hash tx))|]);
    cbn; intros Hrun; injection Hrun as <- <-; cbn;
    rewrite <- ?app_assoc; rewrite ?Hp; repeat split; reflexivity.
Qed.

(** C10: a deploy action of either kind whose deployment is confirmed and
    whose deployment transaction has a hash adds exactly two entries to the
    log: first the success entry with the contract address and its explorer
    link, then the info entry with the link of the deployment transaction,
    which is therefore the head of the log right after the deploy. *)
Theorem deploy_success_logs_two_entries
    (env : Env) (k : ContractKind) (w : World)
    (sg : Signer) (d : Deployment) (tx : Tx) :
  no_provider (app w) = false ->
  answers env (trace w)
    [Ev getSigner (Resolved sg);
     Ev (factory_deploy k sg) (Resolved d);
     Ev (waitForDeployment d) (Resolved tt)] ->
  deploymentTransaction d = Some tx ->
  truthy (hash tx) = true ->
  logs (app (exec (deploy env k) w)) =
    {| type := info; message := "Deployment tx"; href := Some (txLink (hash tx)) |}
    :: {| type := success;
          message := "Deployed " ++ contract_name k ++ " at " ++ target d;
          href := Some (addressLink (target d)) |}
    :: logs (app w)
  /\ hd_error (logs (app (exec (deploy env k) w))) =
       Some {| type := info; message := "Deployment tx";
               href := Some (txLink (hash tx)) |}
  /\ List.length (logs (app (exec (deploy env k) w))) =
       S (S (List.length (logs (app w)))).
Proof.
  intros Hprov Hans Htx Hhash.
  destruct (deploy_confirmed_run env k w sg d Hprov Hans) as (_ & _ & Hlogs & _).
  unfold deployment_tx_entries in Hlogs. rewrite Htx, Hhash in Hlogs.
  rewrite Hlogs. repeat split; reflexivity.
Qed.

Lemma deploy_success_logs_two_entries_witness :
  logs (app (exec (deploy on_arc EscbaseToken) connected)) =
    [ {| type := info; message := "Deployment tx";
         href := Some "https://testnet.arcscan.app/tx/0xd0d0" |};
      {| type := success;
         message := "Deployed EscbaseToken at 0xAAA0000000000000000000000000000000000AAA";
         href := Some "https://testnet.arcscan.app/address/0xAAA0000000000000000000000000000000000AAA" |};
      {| type := success; message := "Wallet connected and on Arc Testnet.";
         href := None |} ].
Proof.
  apply (deploy_success_logs_two_entries
           on_arc EscbaseToken connected the_signer the_deployment {| hash := "0xd0d0" |});
    repeat split; reflexivity.
Defined.

Lemma parseUnits_100 :
  Ethers.parseUnits "100" 18 = Resolved 100000000000000000000.
Proof. vm_compute. reflexivity. Qed.

Lemma mintToken_confirmed_run
    (env : Env) (w : World) (address : string) (sg : Signer) (owner : string) (tx : Tx) :
  no_provider (app w) = false ->
  token (deployed (app w)) = Some address ->
  truthy address = true ->
  answers env (trace w)
    [Ev getSigner (Resolved sg);
     Ev (contract_owner EscbaseToken address) (Resolved owner);
     Ev (token_mint address owner 100000000000000000000) (Resolved tx);
     Ev (tx_wait tx) (Resolved tt)] ->
  result (mintToken env) w = Resolved tt
  /\ logs (app (exec (mintToken env) w)) = mint_token_success_entry tx :: logs (app w).
Proof.
  intros Hprov Htok Haddr [H1 [H2 [H3 [H4 _]]]].
  unfold no_provider in Hprov.
  destruct (provider (app w)) as [p|] eqn:Hp; [clear Hprov|discriminate].
  unfold result, exec.
  destruct (mintToken env w) as [r w'] eqn:Hrun. revert Hrun.
  unfold mintToken, closure. rewrite Hp, Htok, Haddr.
  unfold finally, try_catch, mintToken_try, bind, perform.
  cbn [negb setBusy update trace app alerts]. rewrite H1.
  cbn [trace app alerts]. rewrite H2.
  rewrite parseUnits_100. cbn [lift trace app alerts]. rewrite H3.
  cbn [trace app alerts]. rewrite H4.
  cbn. intros Hrun. injection Hrun as <- <-. split; reflexivity.
Qed.

(** C4, as the code has it: after a confirmed deploy of the token and a
    confirmed mint, the head of the log is the mint success entry; below it
    comes the info entry of the deployment transaction whenever that
    transaction has a hash, and only then the deploy success entry, which is
    the second entry exactly when the deployment transaction has no hash. *)
Theorem deploy_then_mint_log
    (env : Env) (w : World) (sg : Signer) (d : Deployment)
    (sg' : Signer) (owner : string) (tx : Tx) :
  no_provider (app w) = false ->
  truthy (target d) = true ->
  answers env (trace w)
    [Ev getSigner (Resolved sg);
     Ev (factory_deploy EscbaseToken sg) (Resolved d);
     Ev (waitForDeployment d) (Resolved tt);
     Ev getSigner (Resolved sg');
     Ev (contract_owner EscbaseToken (target d)) (Resolved owner);
     Ev (token_mint (target d) owner 100000000000000000000) (Resolved tx);
     Ev (tx_wait tx) (Resolved tt)] ->
  let w2 := exec (mintToken env) (exec (deployToken env) w) in
  logs (app w2) =
    (mint_token_success_entry tx
     :: deployment_tx_entries d
     ++ deploy_success_entry EscbaseToken (target d) :: logs (app w))%list
  /\ hd_error (logs (app w2)) = Some (mint_token_success_entry tx)
  /\ (nth_error (logs (app w2)) 1 = Some (deploy_success_entry EscbaseToken (target d))
      <-> deployment_tx_entries d = []).
Proof.
  intros Hprov Haddr (H1 & H2 & H3 & H4 & H5 & H6 & H7 & _) w2.
  destruct (deploy_confirmed_run env EscbaseToken w sg d Hprov)
    as (_ & Htrace & Hlogs & Hdep & Hp & _).
  { repeat split; assumption. }
  cbn [deploy] in Htrace, Hlogs, Hdep, Hp.
  destruct (mintToken_confirmed_run env (exec (deployToken env) w) (target d) sg' owner tx)
    as (_ & Hlogs2).
  { unfold no_provider in *. rewrite Hp. exact Hprov. }
  { rewrite Hdep. reflexivity. }
  { exact Haddr. }
  { rewrite Htrace. cbn [answers]. rewrite <- !app_assoc in *. cbn [List.app] in *.
    repeat split; assumption. }
  assert (Hall : logs (app w2) =
    (mint_token_success_entry tx
     :: deployment_tx_entries d
     ++ deploy_success_entry EscbaseToken (target d) :: logs (app w))%list).
  { unfold w2. rewrite Hlogs2, Hlogs. reflexivity. }
  rewrite Hall. split; [reflexivity|]. split; [reflexivity|].
  unfold deployment_tx_entries.
  destruct (deploymentTransaction d) as [t|]; [destruct (truthy (hash t))|]; cbn.
  - split; [intros H; discriminate H | intros H; discriminate H].
  - split; reflexivity.
  - split; reflexivity.
Qed.

Lemma deploy_then_mint_log_witness :
  let w2 := exec (mintToken on_arc) (exec (deployToken on_arc) connected) in
  hd_error (logs (app w2)) = Some (mint_token_success_entry the_tx).
Proof.
  intros w2.
  apply (deploy_then_mint_log on_arc connected the_signer the_deployment
           the_signer (signer_address the_signer) the_tx);
    repeat split; reflexivity.
Defined.

(** C4 as stated fails: on a wallet that grants everything, connect, deploy
    the token, mint.  Both succeed, the head of the log is the mint success
    entry, and the second entry is the info entry of the deployment
    transaction; the deploy success entry is third. *)
Lemma deploy_then_mint_second_entry_is_tx_link :
  let w := session on_arc true [ConnectButton; DeployTokenButton; MintTokenButton]
                   initialWorld in
  hd_error (logs (app w)) = Some (mint_token_success_entry the_tx)
  /\ nth_error (logs (app w)) 1 = Some (deployment_tx_entry "0xd0d0")
  /\ nth_error (logs (app w)) 2 =
       Some (deploy_success_entry EscbaseToken (target the_deployment))
  /\ nth_error (logs (app w)) 1 <>
       Some (deploy_success_entry EscbaseToken (target the_deployment)).
Proof.
  cbv zeta. repeat split; try reflexivity.
  vm_compute. discriminate.
Qed.

Lemma kind_eqb_refl (k : ContractKind) : kind_eqb k k = true.
Proof. destruct k; reflexivity. Qed.

Lemma Deployment_eqb_refl (d : Deployment) : Deployment_eqb d d = true.
Proof.
  unfold Deployment_eqb. rewrite String.eqb_refl.
  destruct (deploymentTransaction d); [apply String.eqb_refl | reflexivity].
Qed.

Lemma confirmed_app_l (k : ContractKind) (address : string) (tr more : list Event) :
  confirmed k address tr = true -> confirmed k address (tr ++ more) = true.
Proof.
  induction tr as [|e tr IH]; cbn [confirmed List.app]; [discriminate|].
  intros H. apply orb_true_iff in H. apply orb_true_iff.
  destruct H as [H|H]; [left | right; auto].
  destruct (deployment_of k e) as [d|]; [|discriminate].
  apply andb_true_iff in H. destruct H as [Ha Hc].
  rewrite Ha, existsb_app, Hc. reflexivity.
Qed.

Lemma confirmed_app_r (k : ContractKind) (address : string) (tr more : list Event) :
  confirmed k address more = true -> confirmed k address (tr ++ more) = true.
Proof.
  intros H. induction tr as [|e tr IH]; cbn [confirmed List.app]; [exact H|].
  rewrite IH. apply orb_true_r.
Qed.

Lemma confirmation_confirmed (k : ContractKind) (tr : list Event) (d : Deployment) :
  confirmation k tr = Some d -> confirmed k (target d) tr = true.
Proof.
  induction tr as [|e tr IH]; cbn [confirmation confirmed]; [discriminate|].
  destruct (deployment_of k e) as [d'|].
  - destruct (existsb (confirms d') tr) eqn:Hc.
    + intros H. injection H as ->. rewrite String.eqb_refl. reflexivity.
    + intros H. rewrite (IH H). apply orb_true_r.
  - intros H. rewrite (IH H). reflexivity.
Qed.

(** What a deploy action does to [deployed], whatever the environment
    answers: the entry of its kind is set to the target of the deployment
    that its own requests show confirmed, and nothing changes otherwise. *)
Lemma deploy_sets_iff_confirmed (env : Env) (k : ContractKind) (w : World) :
  let w' := exec (deploy env k) w in
  let new := new_events w w' in
  trace w' = (trace w ++ new)%list
  /\ deployed (app w') =
       match confirmation k new with
       | Some d => with_address k (target d) (deployed (app w))
       | None => deployed (app w)
       end.
Proof.
  intros w' new.
  assert (H : exists l,
    trace w' = (trace w ++ l)%list
    /\ deployed (app w') =
         match confirmation k l with
         | Some d => with_address k (target d) (deployed (app w))
         | None => deployed (app w)
         end).
  { unfold w', exec.
    destruct (deploy env k w) as [r w1] eqn:Hrun. revert Hrun.
    destruct k; unfold deploy, deployNFT, deployToken, closure;
      (destruct (provider (app w)) as [p|];
       [| intros Hrun; injection Hrun as <- <-; exists [];
          cbn; rewrite app_nil_r; split; reflexivity]);
      unfold finally, try_catch, deployNFT_try, deployToken_try, bind, perform;
      cbn [setBusy update trace app alerts];
      (destruct (env Signer (trace w) getSigner) as [sg|e1];
       [ cbn [trace app alerts];
         match goal with
         | |- context [env Deployment ?t ?c] =>
             destruct (env Deployment t c) as [d|e2];
             [ cbn [trace app alerts];
               match goal with
               | |- context [env unit ?t' ?c'] =>
                   destruct (env unit t' c') as [u|e3]
               end
             | ]
         end
       | ]);
      try (destruct (deploymentTransaction d) as [tx|] eqn:Htx;
           [destruct (truthy (hash tx))|]);
      cbn; intros Hrun; injection Hrun as <- <-; cbn [app trace deployed];
      rewrite <- ?app_assoc; cbn [List.app];
      eexists; (split; [reflexivity|]);
      cbn; rewrite ?Deployment_eqb_refl; reflexivity. }
  destruct H as [l [Ht Hd]].
  assert (Hnew : new = l) by (apply new_events_app; exact Ht).
  rewrite Hnew. split; assumption.
Qed.

Lemma keeps_deployed_update (f : AppState -> AppState) :
  (forall s, deployed (f s) = deployed s) -> steps keeps_deployed (update f).
Proof.
  intros Hf w. split; [apply Hf|]. exists []. cbn. symmetry. apply app_nil_r.
Qed.

Lemma keeps_deployed_alert (msg : string) : steps keeps_deployed (alert msg).
Proof.
  intro w. split; [reflexivity|]. exists []. cbn. symmetry. apply app_nil_r.
Qed.

(** Closes the goals [handler_steps] leaves for [keeps_deployed]. *)
Ltac keeps_deployed_leaf :=
  match goal with
  | |- steps _ (update _) => apply keeps_deployed_update; intro; reflexivity
  | |- steps _ (perform _ _) => apply keeps_deployed_perform
  | |- steps _ (alert _) => apply keeps_deployed_alert
  end.

Ltac unfold_setters :=
  unfold logError, pushLog, setProvider, setSignerAddress, setBusy, setLogs,
    setNativeBalance, setSendRecipient, setSendAmount, setSwapAmount.

Lemma ensureArcNetwork_keeps_deployed (env : Env) (prov : BrowserProvider) :
  steps keeps_deployed (ensureArcNetwork env prov).
Proof.
  unfold ensureArcNetwork; unfold_setters.
  handler_steps keeps_deployed_refl keeps_deployed_trans; keeps_deployed_leaf.
Qed.

Lemma connect_keeps_deployed (env : Env) (window_ethereum : bool) :
  steps keeps_deployed (connect env window_ethereum).
Proof.
  unfold connect. destruct window_ethereum; cbn [negb].
  - unfold_setters.
    handler_steps keeps_deployed_refl keeps_deployed_trans;
      try keeps_deployed_leaf; apply ensureArcNetwork_keeps_deployed.
  - apply keeps_deployed_alert.
Qed.

Lemma handler_keeps_deployed (env : Env) (window_ethereum : bool) (c : Control) :
  c <> DeployNftButton -> c <> DeployTokenButton ->
  steps keeps_deployed (handler env window_ethereum c).
Proof.
  intros Hn Ht.
  destruct c; try congruence; cbn [handler];
    try apply connect_keeps_deployed;
    unfold mintNft, mintToken, sendUSDC, swapUSDCtoESC,
      mintNft_try, mintToken_try, sendUSDC_try, swapUSDCtoESC_try;
    unfold_setters;
    handler_steps keeps_deployed_refl keeps_deployed_trans;
    try keeps_deployed_leaf; apply ensureArcNetwork_keeps_deployed.
Qed.

Lemma deployed_confirmed_keeps (w w' : World) :
  keeps_deployed w w' -> deployed_confirmed w -> deployed_confirmed w'.
Proof.
  intros [Hd [new Ht]] Hinv k address Hset.
  rewrite Hd in Hset. rewrite Ht. apply confirmed_app_l. apply Hinv. exact Hset.
Qed.

Lemma deployed_confirmed_deploy (env : Env) (k : ContractKind) (w : World) :
  deployed_confirmed w -> deployed_confirmed (exec (deploy env k) w).
Proof.
  intros Hinv k' address Hset.
  destruct (deploy_sets_iff_confirmed env k w) as [Ht Hd].
  rewrite Ht. rewrite Hd in Hset.
  destruct (confirmation k (new_events w (exec (deploy env k) w))) as [d|] eqn:Hc.
  - destruct k, k'; cbn in Hset.
    + injection Hset as <-. apply confirmed_app_r, confirmation_confirmed, Hc.
    + apply confirmed_app_l, Hinv. exact Hset.
    + apply confirmed_app_l, Hinv. exact Hset.
    + injection Hset as <-. apply confirmed_app_r, confirmation_confirmed, Hc.
  - apply confirmed_app_l, Hinv. exact Hset.
Qed.

Lemma deployed_confirmed_trigger
    (env : Env) (window_ethereum : bool) (c : Control) (w : World) :
  deployed_confirmed w -> deployed_confirmed (exec (trigger env window_ethereum c) w).
Proof.
  intros Hinv. unfold exec, trigger.
  destruct (rendered c (app w) && negb (disabled c (app w))); [|exact Hinv].
  destruct c;
    try (apply (deployed_confirmed_keeps w); [|exact Hinv];
         apply handler_keeps_deployed; discriminate).
  - apply (deployed_confirmed_deploy env SimpleNFT w Hinv).
  - apply (deployed_confirmed_deploy env EscbaseToken w Hinv).
Qed.

Lemma deployed_confirmed_session
    (env : Env) (window_ethereum : bool) (gestures : list Control) (w : World) :
  deployed_confirmed w -> deployed_confirmed (session env window_ethereum gestures w).
Proof.
  revert w. induction gestures as [|c rest IH]; intros w Hinv; cbn [session].
  - exact Hinv.
  - apply IH. apply (deployed_confirmed_trigger env window_ethereum c w Hinv).
Qed.



(** ** The network gate *)

Lemma extends_refl (w : World) : extends w w.
Proof. exists []. symmetry. apply app_nil_r. Qed.

Lemma extends_trans (a b c : World) : extends a b -> extends b c -> extends a c.
Proof.
  intros [n1 H1] [n2 H2]. exists (n1 ++ n2)%list.
  rewrite H2, H1. symmetry. apply app_assoc.
Qed.

Lemma keeps_provider_refl (w : World) : keeps_provider w w.
Proof. split; [reflexivity | apply extends_refl]. Qed.

Lemma keeps_provider_trans (a b c : World) :
  keeps_provider a b -> keeps_provider b c -> keeps_provider a c.
Proof.
  intros [Hp1 He1] [Hp2 He2]. split; [congruence|].
  eapply extends_trans; eassumption.
Qed.

Lemma keeps_provider_update (f : AppState -> AppState) :
  (forall s, provider (f s) = provider s) -> steps keeps_provider (update f).
Proof.
  intros Hf w. split; [apply Hf|]. exists []. cbn. symmetry. apply app_nil_r.
Qed.

Lemma keeps_provider_perform (env : Env) {T} (c : Call T) :
  steps keeps_provider (perform env c).
Proof. intro w. split; [reflexivity|]. eexists. reflexivity. Qed.

Ltac keeps_provider_leaf :=
  match goal with
  | |- steps _ (update _) => apply keeps_provider_update; intro; reflexivity
  | |- steps _ (perform _ _) => apply keeps_provider_perform
  end.

Lemma ensureArcNetwork_keeps_provider (env : Env) (prov : BrowserProvider) :
  steps keeps_provider (ensureArcNetwork env prov).
Proof.
  unfold ensureArcNetwork; unfold_setters.
  handler_steps keeps_provider_refl keeps_provider_trans; keeps_provider_leaf.
Qed.

Lemma handler_keeps_provider (env : Env) (window_ethereum : bool) (c : Control) :
  c <> ConnectButton ->
  steps keeps_provider (handler env window_ethereum c).
Proof.
  intros Hc.
  destruct c; try congruence; cbn [handler];
    unfold deployNFT, deployToken, mintNft, mintToken, sendUSDC, swapUSDCtoESC,
      deployNFT_try, deployToken_try, mintNft_try, mintToken_try, sendUSDC_try,
      swapUSDCtoESC_try, setDeployed;
    unfold_setters;
    handler_steps keeps_provider_refl keeps_provider_trans;
    try keeps_provider_leaf; apply ensureArcNetwork_keeps_provider.
Qed.

Lemma reconciled_app_l (tr more : list Event) :
  reconciled tr = true -> reconciled (tr ++ more) = true.
Proof. unfold reconciled. intros H. rewrite existsb_app, H. reflexivity. Qed.

Lemma reconciled_app_r (tr more : list Event) :
  reconciled more = true -> reconciled (tr ++ more) = true.
Proof. unfold reconciled. intros H. rewrite existsb_app, H. apply orb_true_r. Qed.

(** [ensureArcNetwork] returns [true] only after a request that shows the
    wallet on the target network. *)
Lemma ensureArcNetwork_true_reconciled
    (env : Env) (prov : BrowserProvider) (w w' : World) :
  ensureArcNetwork env prov w = (Resolved true, w') ->
  exists new, trace w' = (trace w ++ new)%list /\ reconciled new = true.
Proof.
  unfold ensureArcNetwork, try_catch, bind, perform, pushLog, setLogs, update.
  cbn [trace app alerts].
  destruct (env (option string) (trace w) eth_chainId) as [current|e0];
    [|cbn; intros H; discriminate H].
  destruct (is_target current) eqn:Htarget.
  - cbn. intros H. injection H as <-. eexists. split; [reflexivity|].
    unfold reconciled. cbn. rewrite Htarget. reflexivity.
  - cbn [trace app alerts].
    match goal with
    | |- context [env unit ?t ?c] => destruct (env unit t c) as [u|err]
    end.
    + cbn. intros H. injection H as <-. rewrite <- app_assoc.
      eexists. split; [reflexivity|].
      unfold reconciled. cbn. rewrite Htarget. reflexivity.
    + destruct (unrecognized_chain err); [|cbn; intros H; discriminate H].
      cbn [trace app alerts].
      match goal with
      | |- context [env unit ?t ?c] => destruct (env unit t c) as [u|e1]
      end; [|cbn; intros H; discriminate H].
      cbn [trace app alerts].
      match goal with
      | |- context [env unit ?t ?c] => destruct (env unit t c) as [u'|e2]
      end; [|cbn; intros H; discriminate H].
      cbn. intros H. injection H as <-. rewrite <- !app_assoc.
      eexists. split; [reflexivity|].
      unfold reconciled. cbn. rewrite Htarget. reflexivity.
Qed.

Lemma extends_update (f : AppState -> AppState) : steps extends (update f).
Proof. intro w. exists []. cbn. symmetry. apply app_nil_r. Qed.

Lemma extends_perform (env : Env) {T} (c : Call T) : steps extends (perform env c).
Proof. intro w. eexists. reflexivity. Qed.

Lemma provider_reconciled_keeps (w w' : World) :
  keeps_provider w w' -> provider_reconciled w -> provider_reconciled w'.
Proof.
  intros [Hp [new Ht]] Hinv Hset. unfold no_provider in *.
  rewrite Hp in Hset. rewrite Ht. apply reconciled_app_l. apply Hinv. exact Hset.
Qed.

(** [connect] stores the provider only past a successful reconciliation. *)
Lemma provider_reconciled_connect (env : Env) (window_ethereum : bool) (w : World) :
  provider_reconciled w -> provider_reconciled (exec (connect env window_ethereum) w).
Proof.
  intros Hinv. unfold connect. destruct window_ethereum; cbn [negb].
  2:{ apply (provider_reconciled_keeps w); [|exact Hinv].
      split; [reflexivity|]. exists []. cbn. symmetry. apply app_nil_r. }
  unfold exec. unfold bind at 1.
  pose proof (keeps_provider_perform env eth_requestAccounts w) as H0.
  unfold exec in H0.
  destruct (perform env eth_requestAccounts w) as [[u|e] w0]; cbn [snd] in *.
  2:{ apply (provider_reconciled_keeps w); assumption. }
  unfold bind at 1.
  pose proof (ensureArcNetwork_keeps_provider env WindowEthereum w0) as H1.
  unfold exec in H1.
  destruct (ensureArcNetwork env WindowEthereum w0) as [[ok|e] w2] eqn:He;
    cbn [snd] in *.
  2:{ apply (provider_reconciled_keeps w); [|exact Hinv].
      eapply keeps_provider_trans; eassumption. }
  destruct ok; cbn [negb].
  2:{ apply (provider_reconciled_keeps w); [|exact Hinv].
      eapply keeps_provider_trans; eassumption. }
  destruct (ensureArcNetwork_true_reconciled env WindowEthereum w0 w2 He)
    as [n2 [Ht2 Hr2]].
  match goal with
  | |- provider_reconciled (snd (?m w2)) =>
      assert (Hext : steps extends m)
  end.
  { unfold_setters.
    handler_steps extends_refl extends_trans;
      match goal with
      | |- steps _ (update _) => apply extends_update
      | |- steps _ (perform _ _) => apply extends_perform
      end. }
  destruct (Hext w2) as [n3 Ht3]. unfold exec in Ht3.
  intros _. rewrite Ht3, Ht2.
  apply reconciled_app_l, reconciled_app_r. exact Hr2.
Qed.

Lemma provider_reconciled_trigger
    (env : Env) (window_ethereum : bool) (c : Control) (w : World) :
  provider_reconciled w ->
  provider_reconciled (exec (trigger env window_ethereum c) w).
Proof.
  intros Hinv. unfold exec, trigger.
  destruct (rendered c (app w) && negb (disabled c (app w))); [|exact Hinv].
  destruct c;
    try (apply (provider_reconciled_keeps w); [|exact Hinv];
         apply handler_keeps_provider; discriminate).
  apply (provider_reconciled_connect env window_ethereum w Hinv).
Qed.

Lemma provider_reconciled_session
    (env : Env) (window_ethereum : bool) (gestures : list Control) (w : World) :
  provider_reconciled w ->
  provider_reconciled (session env window_ethereum gestures w).
Proof.
  revert w. induction gestures as [|c rest IH]; intros w Hinv; cbn [session].
  - exact Hinv.
  - apply IH. apply (provider_reconciled_trigger env window_ethereum c w Hinv).
Qed.

Lemma run_action_without_provider (env : Env) (a : Action) (w : World) :
  no_provider (app w) = true -> run_action env a w = (Resolved tt, w).
Proof.
  intros H. rewrite run_action_shape. unfold preflight. rewrite H. reflexivity.
Qed.

(** C1, as the code has it: the deploy, mint, transfer and swap actions
    are gated on a stored provider and on nothing else about the network.
    Without a provider an action returns at once, with no request and no
    change.  Along a session from a fresh page, a provider is stored only
    past a reconciliation that succeeded (in [connect]), so every request
    of an action comes after one.  The actions themselves never read or
    switch the network: none of their requests is a network request. *)
Theorem actions_gated_on_provider :
  (forall (env : Env) (a : Action) (w : World),
     no_provider (app w) = true -> run_action env a w = (Resolved tt, w))
  /\ (forall (env : Env) (window_ethereum : bool) (gestures : list Control) (a : Action),
        let w := session env window_ethereum gestures initialWorld in
        new_events w (exec (run_action env a) w) <> [] ->
        reconciled (trace w) = true)
  /\ (forall (env : Env) (a : Action) (w : World),
        let w' := exec (run_action env a) w in
        trace w' = (trace w ++ new_events w w')%list
        /\ forallb (fun e => negb (is_network_request e)) (new_events w w') = true).
Proof.
  split; [exact run_action_without_provider|]. split.
  - intros env window_ethereum gestures a w Hnew.
    apply (provider_reconciled_session env window_ethereum gestures initialWorld).
    + intros H. discriminate H.
    + destruct (no_provider (app w)) eqn:Hp; [|exact Hp].
      exfalso. apply Hnew. unfold exec.
      rewrite (run_action_without_provider env a w Hp). cbn [snd].
      unfold new_events. apply skipn_all.
  - intros env a w w'.
    destruct (run_action_no_network_request env a w) as [new [Ht Hn]].
    fold w' in Ht.
    rewrite (new_events_app w w' new Ht). split; assumption.
Qed.

Lemma actions_gated_on_provider_witness :
  reconciled (trace connected) = true.
Proof.
  apply (proj1 (proj2 actions_gated_on_provider) on_arc true [ConnectButton] DeployNFT).
  vm_compute. discriminate.
Defined.

(** C1 as stated fails.  The wallet is on Arc Testnet when the user
    connects and on another network afterwards.  The deploy button then
    runs [deployNFT], which issues its three requests, the creation
    transaction among them, without any network request: the action does
    not short-circuit although the active network is not the target. *)
Lemma deploy_on_wrong_network_not_blocked :
  let env := scripted (fun n => if Nat.leb n 1 then Some ARC_CHAIN_ID_HEX else Some "0x1") [] in
  let w := session env true [ConnectButton] initialWorld in
  let w' := exec (trigger env true DeployNftButton) w in
  env _ (trace w) eth_chainId = Resolved (Some "0x1")
  /\ is_target (Some "0x1") = false
  /\ new_events w w' =
       [Ev getSigner (Resolved the_signer);
        Ev (factory_deploy SimpleNFT the_signer) (Resolved the_deployment);
        Ev (waitForDeployment the_deployment) (Resolved tt)]
  /\ new_events w w' <> []
  /\ nft (deployed (app w')) = Some (target the_deployment).
Proof.
  cbv zeta. repeat split; try reflexivity.
  vm_compute. discriminate.
Qed.

(** ** Errors *)

Lemma length_append (a b : string) :
  String.length (a ++ b) = (String.length a + String.length b)%nat.
Proof. induction a as [|c a IH]; cbn; [reflexivity | rewrite IH; reflexivity]. Qed.

Lemma length_slice_to (n : nat) (s : string) :
  (String.length (slice_to n s) <= n)%nat.
Proof.
  unfold slice_to. revert s.
  induction n as [|n IH]; intros [|c s]; cbn; try lia.
  specialize (IH s). lia.
Qed.

Lemma getErrorMessage_bounded (e : Thrown) :
  (String.length (getErrorMessage e) <= 180 + String.length ellipsis)%nat.
Proof.
  destruct e as [|o]; cbn [getErrorMessage]; [cbn; lia|].
  destruct (code_is 4001 o || message_includes "ACTION_REJECTED" o); [cbn; lia|].
  cbv zeta.
  destruct (Nat.ltb 180 (String.length _)) eqn:Hlong.
  - rewrite length_append.
    pose proof (length_slice_to 180
      (or_else (err_shortMessage o) (or_else (err_message o) (err_toString o)))).
    lia.
  - apply Nat.ltb_ge in Hlong. lia.
Qed.

Lemma run_action_resolves (env : Env) (a : Action) (w : World) :
  result (run_action env a) w = Resolved tt.
Proof.
  unfold result. rewrite run_action_shape.
  destruct (preflight a (app w)); [|reflexivity].
  rewrite guarded_run.
  destruct (try_block env a (app w) (exec (setBusy true) w)) as [[[]|e] w1];
    reflexivity.
Qed.

Lemma run_action_catches (env : Env) (a : Action) (w w1 : World) (e : Thrown) :
  preflight a (app w) = true ->
  try_block env a (app w) (exec (setBusy true) w) = (Rejected e, w1) ->
  exec (run_action env a) w = exec (setBusy false) (exec (logError e) w1).
Proof.
  intros Hpre Hbody. unfold exec at 1. rewrite run_action_shape, Hpre, guarded_run, Hbody.
  reflexivity.
Qed.

(** [ensureArcNetwork] never rejects.  When it returns [false] its last
    request is the one that was rejected, and the entry it logs carries the
    message of that very error. *)
Lemma ensureArcNetwork_catches (env : Env) (prov : BrowserProvider) (w : World) :
  exists ok,
    result (ensureArcNetwork env prov) w = Resolved ok
    /\ if ok
       then logs (app (exec (ensureArcNetwork env prov) w)) = logs (app w)
       else exists e,
              last_rejection (new_events w (exec (ensureArcNetwork env prov) w))
                = Some e
              /\ logs (app (exec (ensureArcNetwork env prov) w)) =
                   error_entry ("Failed to switch to Arc Testnet: "
                                ++ message_or_unknown e)
                   :: logs (app w).
Proof.
  assert (H : exists ok l,
    result (ensureArcNetwork env prov) w = Resolved ok
    /\ trace (exec (ensureArcNetwork env prov) w) = (trace w ++ l)%list
    /\ if ok
       then logs (app (exec (ensureArcNetwork env prov) w)) = logs (app w)
       else exists e,
              last_rejection l = Some e
              /\ logs (app (exec (ensureArcNetwork env prov) w)) =
                   error_entry ("Failed to switch to Arc Testnet: "
                                ++ message_or_unknown e)
                   :: logs (app w)).
  { unfold result, exec.
    destruct (ensureArcNetwork env prov w) as [r w'] eqn:Hrun. revert Hrun.
    unfold ensureArcNetwork, try_catch, bind, perform, pushLog, setLogs, update.
    cbn [trace app alerts].
    destruct (env (option string) (trace w) eth_chainId) as [current|e0].
    2:{ cbn. intros H. injection H as <- <-. exists false. eexists.
        split; [reflexivity|]. split; [reflexivity|]. exists e0. split; reflexivity. }
    destruct (is_target current).
    { cbn. intros H. injection H as <- <-. exists true. eexists.
      split; [reflexivity|]. split; reflexivity. }
    cbn [trace app alerts].
    match goal with
    | |- context [env unit ?t ?c] => destruct (env unit t c) as [u|err]
    end.
    { cbn. intros H. injection H as <- <-. exists true. eexists.
      split; [reflexivity|]. rewrite <- app_assoc. split; reflexivity. }
    destruct (unrecognized_chain err).
    2:{ cbn. intros H. injection H as <- <-. exists false. eexists.
        split; [reflexivity|]. rewrite <- app_assoc. split; [reflexivity|].
        exists err. split; reflexivity. }
    cbn [trace app alerts].
    match goal with
    | |- context [env unit ?t ?c] => destruct (env unit t c) as [u|e1]
    end.
    2:{ cbn. intros H. injection H as <- <-. exists false. eexists.
        split; [reflexivity|]. rewrite <- !app_assoc. split; [reflexivity|].
        exists e1. split; reflexivity. }
    cbn [trace app alerts].
    match goal with
    | |- context [env unit ?t ?c] => destruct (env unit t c) as [u'|e2]
    end.
    { cbn. intros H. injection H as <- <-. exists true. eexists.
      split; [reflexivity|]. rewrite <- !app_assoc. split; reflexivity. }
    cbn. intros H. injection H as <- <-. exists false. eexists.
    split; [reflexivity|]. rewrite <- !app_assoc. split; [reflexivity|].
    exists e2. split; reflexivity. }
  destruct H as (ok & l & Hres & Htrace & Hlogs).
  exists ok. split; [exact Hres|].
  rewrite (new_events_app w _ l Htrace). exact Hlogs.
Qed.

(** The reconciler shows the message of an error whole, whatever its
    length. *)
Lemma message_or_unknown_whole (o : ErrorObject) (m : string) :
  err_message o = Some m -> truthy m = true -> message_or_unknown (Obj o) = m.
Proof.
  intros Hm Ht. cbn [message_or_unknown]. unfold or_else.
  rewrite Hm. cbn [truthy_opt]. rewrite Ht. reflexivity.
Qed.

(** The balance read of [connect] is the one place where a rejection is
    dropped: [connect] goes on to its success entry and [nativeBalance]
    keeps its value. *)
Lemma connect_swallows_balance_failure
    (env : Env) (w w2 : World) (sg : Signer) (e : Thrown) :
  env _ (trace w) eth_requestAccounts = Resolved tt ->
  ensureArcNetwork env WindowEthereum (exec (perform env eth_requestAccounts) w)
    = (Resolved true, w2) ->
  env _ (trace w2) getSigner = Resolved sg ->
  env _ (trace w2 ++ [Ev getSigner (Resolved sg)])%list (getBalance (signer_address sg))
    = Rejected e ->
  result (connect env true) w = Resolved tt
  /\ logs (app (exec (connect env true) w)) =
       {| type := success; message := "Wallet connected and on Arc Testnet.";
          href := None |} :: logs (app w2)
  /\ nativeBalance (app (exec (connect env true) w)) = nativeBalance (app w2).
Proof.
  intros Hreq Hnet Hsigner Hbal.
  unfold result, exec in *.
  destruct (connect env true w) as [r w'] eqn:Hrun. revert Hrun.
  unfold connect. cbn [negb]. unfold bind at 1.
  revert Hnet. unfold perform at 1 2. rewrite Hreq. cbn [snd]. intros Hnet.
  unfold bind at 1. rewrite Hnet. cbn [negb].
  unfold try_catch, bind, perform. unfold_setters. unfold update.
  cbn [trace app alerts]. rewrite Hsigner.
  cbn [trace app alerts]. rewrite Hbal.
  cbn. intros H. injection H as <- <-. repeat split; reflexivity.
Qed.

(** C5, as the code has it, for thrown values as [Thrown] describes them
    (a falsy value, or a value whose message and short message are strings
    or absent): an error raised inside the [try] block of one of the six
    busy-gated actions is caught at the boundary of that action: the action
    never rejects, and when its [try] block throws [e] it prepends exactly
    one error entry with the message [getErrorMessage e], clears [busy] and
    issues nothing more; that message is never longer than 180 code units
    plus the ellipsis.  An error raised during network reconciliation is
    caught inside [ensureArcNetwork], which never rejects; exactly when it
    returns [false] its last request is the rejected one and it prepends one
    error entry whose text is the fixed prefix followed by the message of
    that very error, whole whatever its length.  A rejected balance read in
    [connect] is dropped without an entry. *)
Theorem errors_caught_at_action_boundary :
  (forall (env : Env) (a : Action) (w : World),
     result (run_action env a) w = Resolved tt)
  /\ (forall (env : Env) (a : Action) (w w1 : World) (e : Thrown),
        preflight a (app w) = true ->
        try_block env a (app w) (exec (setBusy true) w) = (Rejected e, w1) ->
        let w' := exec (run_action env a) w in
        logs (app w') = error_entry (getErrorMessage e) :: logs (app w1)
        /\ busy (app w') = false
        /\ trace w' = trace w1)
  /\ (forall e : Thrown,
        (String.length (getErrorMessage e) <= 180 + String.length ellipsis)%nat)
  /\ (forall (env : Env) (prov : BrowserProvider) (w : World),
        exists ok,
          result (ensureArcNetwork env prov) w = Resolved ok
          /\ if ok
             then logs (app (exec (ensureArcNetwork env prov) w)) = logs (app w)
             else exists e,
                    last_rejection
                      (new_events w (exec (ensureArcNetwork env prov) w)) = Some e
                    /\ logs (app (exec (ensureArcNetwork env prov) w)) =
                         error_entry ("Failed to switch to Arc Testnet: "
                                      ++ message_or_unknown e)
                         :: logs (app w))
  /\ (forall (o : ErrorObject) (m : string),
        err_message o = Some m -> truthy m = true ->
        message_or_unknown (Obj o) = m)
  /\ (forall (env : Env) (w w2 : World) (sg : Signer) (e : Thrown),
        env _ (trace w) eth_requestAccounts = Resolved tt ->
        ensureArcNetwork env WindowEthereum (exec (perform env eth_requestAccounts) w)
          = (Resolved true, w2) ->
        env _ (trace w2) getSigner = Resolved sg ->
        env _ (trace w2 ++ [Ev getSigner (Resolved sg)])%list
              (getBalance (signer_address sg)) = Rejected e ->
        result (connect env true) w = Resolved tt
        /\ logs (app (exec (connect env true) w)) =
             {| type := success; message := "Wallet connected and on Arc Testnet.";
                href := None |} :: logs (app w2)
        /\ nativeBalance (app (exec (connect env true) w)) = nativeBalance (app w2)).
Proof.
  split; [exact run_action_resolves|].
  split.
  { intros env a w w1 e Hpre Hbody w'. unfold w'.
    rewrite (run_action_catches env a w w1 e Hpre Hbody).
    repeat split; reflexivity. }
  split; [exact getErrorMessage_bounded|].
  split; [exact ensureArcNetwork_catches|].
  split; [exact message_or_unknown_whole|].
  exact connect_swallows_balance_failure.
Qed.

Lemma errors_caught_at_action_boundary_witness :
  let env := scripted (fun _ => Some ARC_CHAIN_ID_HEX) [(5%nat, user_rejected)] in
  logs (app (exec (run_action env DeployNFT) connected)) =
    [ error_entry "User rejected in MetaMask";
      {| type := success; message := "Wallet connected and on Arc Testnet.";
         href := None |} ].
Proof.
  intros env.
  exact (proj1 (proj1 (proj2 errors_caught_at_action_boundary)
                  env DeployNFT connected
                  (snd (try_block env DeployNFT (app connected)
                          (exec (setBusy true) connected)))
                  user_rejected eq_refl eq_refl)).
Defined.

(** C5 as stated fails twice.  The user declines the authorization prompt
    of [connect]: the rejection leaves [connect] uncaught and the log stays
    empty.  The wallet refuses the switch request with a message of 280 code
    units: the entry logged by [ensureArcNetwork] carries all of it. *)
Lemma connect_rejection_escapes_and_switch_error_untruncated :
  (let env := scripted (fun _ => Some ARC_CHAIN_ID_HEX) [(0%nat, user_rejected)] in
   result (connect env true) initialWorld = Rejected user_rejected
   /\ logs (app (exec (connect env true) initialWorld)) = [])
  /\ (let env := scripted (fun _ => Some "0x1")
                   [(1%nat, provider_error (-32603) long_text)] in
      let w' := exec (ensureArcNetwork env WindowEthereum) initialWorld in
      logs (app w') =
        [error_entry ("Failed to switch to Arc Testnet: " ++ long_text)]
      /\ String.length ("Failed to switch to Arc Testnet: " ++ long_text) = 313%nat
      /\ ~ (String.length ("Failed to switch to Arc Testnet: " ++ long_text)
            <= 180 + String.length ellipsis)%nat).
Proof.
  cbv zeta. repeat split; try reflexivity.
  vm_compute. intros H. repeat apply le_S_n in H. inversion H.
Qed.

(** ** Balance refresh *)

(** C9 fails on the refresh that follows a send or a swap.  The transfer
    (or swap) is confirmed and its success entry logged; the balance read
    that follows is rejected; being inside the [try] block, the rejection
    reaches the [catch] of the action, which logs an error entry on top of
    the success entry, and [nativeBalance] keeps its earlier value. *)
Lemma balance_failure_after_send_is_logged :
  (let env := scripted (fun _ => Some ARC_CHAIN_ID_HEX)
                [(7%nat, provider_error (-32603) "Internal JSON-RPC error.")] in
   let w := session env true
              [ConnectButton; MyselfButton; SendAmountInput "1.5"; SendButton]
              initialWorld in
   map message (logs (app w)) =
     [ "Internal JSON-RPC error.";
       "Sent 1.5 USDC to 0x51a9" ++ ellipsis ++ "0001";
       "Wallet connected and on Arc Testnet." ]
   /\ map type (logs (app w)) = [error; success; success]
   /\ nativeBalance (app w) = "2.5")
  /\ (let env := scripted (fun _ => Some ARC_CHAIN_ID_HEX)
                   [(10%nat, provider_error (-32603) "Internal JSON-RPC error.")] in
      let w := session env true
                 [ConnectButton; DeployTokenButton; SwapAmountInput "0.0001"; SwapButton]
                 initialWorld in
      firstn 2 (map message (logs (app w))) =
        [ "Internal JSON-RPC error."; "Swapped 0.0001 USDC to 10.0 ESC" ]
      /\ firstn 2 (map type (logs (app w))) = [error; success]
      /\ nativeBalance (app w) = "2.5").
Proof. cbv zeta. repeat split; vm_compute; reflexivity. Qed.

(** ** Units: [formatUnits] shows a value exactly *)

Module UnitsFacts.
Import Ethers.

Lemma digits_acc_pos (d : Decimal.uint) (acc : positive) :
  digits_acc (NilEmpty.string_of_uint d) (Zpos acc) = Zpos (Pos.of_uint_acc d acc).
Proof.
  revert acc.
  induction d; intros acc;
    cbn [NilEmpty.string_of_uint digits_acc Pos.of_uint_acc];
    try reflexivity;
    rewrite <- IHd; f_equal;
    match goal with
    | |- context [digit_value ?c] =>
        let v := eval vm_compute in (digit_value c) in
        change (digit_value c) with v
    end; lia.
Qed.

Lemma digits_acc_zero (d : Decimal.uint) :
  digits_acc (NilEmpty.string_of_uint d) 0 = Z.of_N (Pos.of_uint d).
Proof.
  induction d;
    cbn [NilEmpty.string_of_uint digits_acc Pos.of_uint];
    try reflexivity;
    try exact IHd;
    match goal with
    | |- context [digit_value ?c] =>
        let v := eval vm_compute in (digit_value c) in
        change (digit_value c) with v
    end;
    cbn [Z.mul Z.add Z.of_N]; apply digits_acc_pos.
Qed.

Lemma BigInt_decimal (n : Z) : 0 <= n -> BigInt (decimal n) = n.
Proof.
  intros Hn. unfold BigInt, decimal. rewrite digits_acc_zero.
  change (Pos.of_uint (N.to_uint (Z.to_N n))) with (N.of_uint (N.to_uint (Z.to_N n))).
  rewrite DecimalN.Unsigned.of_to. apply Z2N.id. exact Hn.
Qed.

Lemma all_digits_string_of_uint (d : Decimal.uint) :
  all_digits (NilEmpty.string_of_uint d) = true.
Proof. induction d; cbn; auto. Qed.

Lemma all_digits_app (a b : string) :
  all_digits (a ++ b) = all_digits a && all_digits b.
Proof.
  induction a as [|c a IH]; cbn; [reflexivity|].
  rewrite IH. apply andb_assoc.
Qed.

Lemma all_digits_zeros (k : nat) : all_digits (zeros k) = true.
Proof. induction k; cbn; auto. Qed.

Lemma length_zeros (k : nat) : String.length (zeros k) = k.
Proof. induction k; cbn; auto. Qed.

Lemma digits_acc_zeros (k : nat) (s : string) :
  digits_acc (zeros k ++ s) 0 = digits_acc s 0.
Proof. induction k; cbn; auto. Qed.

Lemma trim_whole_cons (c c' : ascii) (r : string) :
  trim_whole (String c (String c' r)) =
    if Ascii.eqb c "0" then trim_whole (String c' r) else String c (String c' r).
Proof. reflexivity. Qed.

Lemma digits_acc_trim_whole (W F : string) :
  digits_acc (trim_whole W ++ F) 0 = digits_acc (W ++ F) 0.
Proof.
  induction W as [|c W IH]; [reflexivity|].
  destruct W as [|c' r]; [reflexivity|].
  rewrite trim_whole_cons. destruct (Ascii.eqb_spec c "0") as [->|Hc]; [|reflexivity].
  rewrite IH. reflexivity.
Qed.

Lemma all_digits_trim_whole (W : string) :
  all_digits W = true -> all_digits (trim_whole W) = true.
Proof.
  induction W as [|c W IH]; [reflexivity|].
  destruct W as [|c' r]; [auto|].
  intros H. rewrite trim_whole_cons. destruct (Ascii.eqb c "0"); [|exact H].
  apply IH. cbn [all_digits] in H. apply andb_true_iff in H. apply H.
Qed.

Lemma truthy_trim_whole (W : string) : truthy (trim_whole W) = truthy W.
Proof.
  induction W as [|c W IH]; [reflexivity|].
  destruct W as [|c' r]; [reflexivity|].
  rewrite trim_whole_cons. destruct (Ascii.eqb c "0"); [|reflexivity].
  rewrite IH. reflexivity.
Qed.

Lemma span_digits_app (ds : string) (c : ascii) (rest : string) :
  all_digits ds = true -> is_digit c = false ->
  span_digits (ds ++ String c rest) = (ds, String c rest).
Proof.
  intros Hds Hc. induction ds as [|x ds IH]; cbn [append span_digits].
  - rewrite Hc. reflexivity.
  - cbn [all_digits] in Hds. apply andb_true_iff in Hds. destruct Hds as [Hx Hds].
    rewrite Hx, (IH Hds). reflexivity.
Qed.

Lemma span_digits_all (ds : string) :
  all_digits ds = true -> span_digits ds = (ds, EmptyString).
Proof.
  induction ds as [|x ds IH]; cbn [all_digits span_digits]; [reflexivity|].
  intros H. apply andb_true_iff in H. destruct H as [Hx Hds].
  rewrite Hx, (IH Hds). reflexivity.
Qed.

Lemma strip_zeros_r_pad (F : string) :
  strip_zeros_r F ++ zeros (String.length F - String.length (strip_zeros_r F)) = F
  /\ (String.length (strip_zeros_r F) <= String.length F)%nat.
Proof.
  induction F as [|c F [IH Hlen]]; [split; reflexivity|].
  cbn [strip_zeros_r].
  destruct (strip_zeros_r F) as [|x r] eqn:Hs.
  - cbn [String.length append] in IH. rewrite Nat.sub_0_r in IH.
    destruct (Ascii.eqb_spec c "0") as [->|Hc].
    + cbn [String.length append Nat.sub zeros]. rewrite IH. split; [reflexivity|lia].
    + cbn [String.length append Nat.sub zeros]. rewrite Nat.sub_0_r, IH.
      split; [reflexivity|lia].
  - cbn [String.length append] in *.
    replace (S (String.length F) - S (S (String.length r)))%nat
      with (String.length F - S (String.length r))%nat by lia.
    rewrite IH. split; [reflexivity|lia].
Qed.

Lemma all_digits_strip_zeros_r (F : string) :
  all_digits F = true -> all_digits (strip_zeros_r F) = true.
Proof.
  induction F as [|c F IH]; [reflexivity|].
  cbn [all_digits strip_zeros_r]. intros H.
  apply andb_true_iff in H. destruct H as [Hc HF]. specialize (IH HF).
  destruct (strip_zeros_r F) as [|x r].
  - destruct (Ascii.eqb c "0"); cbn; [reflexivity|]. rewrite Hc. reflexivity.
  - cbn [all_digits] in *. rewrite Hc, IH. reflexivity.
Qed.

Lemma zeros_succ (n : nat) : String "0" (zeros n) = zeros (S n).
Proof. reflexivity. Qed.

Lemma trim_fraction_pad (F : string) :
  truthy F = true ->
  trim_fraction F ++ zeros (String.length F - String.length (trim_fraction F)) = F
  /\ truthy (trim_fraction F) = true.
Proof.
  intros HF. unfold trim_fraction.
  destruct (strip_zeros_r_pad F) as [Hpad Hlen].
  destruct (strip_zeros_r F) as [|x r].
  - destruct F as [|c F]; [discriminate HF|].
    cbn [String.length append Nat.sub] in *. rewrite Nat.sub_0_r.
    split; [|reflexivity]. rewrite zeros_succ. exact Hpad.
  - split; [exact Hpad | reflexivity].
Qed.

Lemma all_digits_trim_fraction (F : string) :
  all_digits F = true -> all_digits (trim_fraction F) = true.
Proof.
  intros H. unfold trim_fraction.
  pose proof (all_digits_strip_zeros_r F H) as Hs.
  destruct (strip_zeros_r F); [reflexivity | exact Hs].
Qed.

Lemma substring_all (s : string) : substring 0 (String.length s) s = s.
Proof. induction s as [|c s IH]; cbn; [reflexivity | rewrite IH; reflexivity]. Qed.

Lemma slice_to_app (a b : string) : slice_to (String.length a) (a ++ b) = a.
Proof.
  unfold slice_to. induction a as [|c a IH]; cbn.
  - destruct b; reflexivity.
  - rewrite IH. reflexivity.
Qed.

Lemma drop_app (a b : string) : drop (String.length a) (a ++ b) = b.
Proof.
  unfold drop. induction a as [|c a IH]; cbn [String.length append].
  - rewrite Nat.sub_0_r. apply substring_all.
  - cbn. exact IH.
Qed.

Lemma drop_all (s : string) : drop (String.length s) s = EmptyString.
Proof.
  unfold drop. rewrite Nat.sub_diag.
  induction s as [|c s IH]; cbn; [reflexivity | exact IH].
Qed.

Lemma split_at (n : nat) (s : string) :
  (n <= String.length s)%nat ->
  exists a b, s = a ++ b /\ String.length a = n.
Proof.
  revert s. induction n as [|n IH]; intros s Hn.
  - exists EmptyString, s. split; reflexivity.
  - destruct s as [|c s]; [cbn in Hn; lia|].
    destruct (IH s) as (a & b & Hs & Ha); [cbn in Hn; lia|].
    exists (String c a), b. cbn. rewrite <- Hs, Ha. split; reflexivity.
Qed.

Lemma digit_not_minus (c : ascii) : is_digit c = true -> Ascii.eqb c "-" = false.
Proof.
  intros H. destruct (Ascii.eqb_spec c "-") as [->|]; [discriminate H | reflexivity].
Qed.

(** What [formatUnits] shows reads back, digit for digit, as the value it
    was given: no rounding takes place. *)
Lemma parseUnits_fixed_toString (v : Z) (d : nat) :
  0 <= v -> in_range v = true ->
  parseUnits (fixed_toString v (S d)) (S d) = Resolved v.
Proof.
  intros Hv Hrange. unfold fixed_toString.
  replace (Z.ltb v 0) with false by (symmetry; apply Z.ltb_ge; exact Hv).
  rewrite (Z.abs_eq v Hv).
  set (str := zeros (S (S d) - String.length (decimal v)) ++ decimal v).
  assert (Hlen : (S (S d) <= String.length str)%nat).
  { unfold str. rewrite length_append, length_zeros. lia. }
  assert (Hdigits : all_digits str = true).
  { unfold str. rewrite all_digits_app, all_digits_zeros. cbn [andb].
    apply all_digits_string_of_uint. }
  assert (Hvalue : BigInt str = v).
  { unfold str, BigInt. rewrite digits_acc_zeros. apply BigInt_decimal. exact Hv. }
  destruct (split_at (String.length str - S d) str) as (W & F & Hstr & HW); [lia|].
  assert (HF : String.length F = S d).
  { rewrite Hstr, length_append in Hlen, HW. lia. }
  rewrite <- HW. clearbody str. subst str.
  rewrite slice_to_app, drop_app.
  rewrite all_digits_app in Hdigits. apply andb_true_iff in Hdigits.
  destruct Hdigits as [HdW HdF].
  assert (HtW : truthy W = true).
  { destruct W; [cbn in HW; rewrite length_append in Hlen; cbn in Hlen; lia | reflexivity]. }
  assert (HtF : truthy F = true) by (destruct F; [discriminate HF | reflexivity]).
  destruct (trim_fraction_pad F HtF) as [Hpad Htf].
  pose proof (all_digits_trim_fraction F HdF) as Hdtf.
  pose proof (all_digits_trim_whole W HdW) as Hdtw.
  pose proof (truthy_trim_whole W) as Httw. rewrite HtW in Httw.
  unfold BigInt in Hvalue. rewrite <- (digits_acc_trim_whole W F) in Hvalue.
  rewrite HF in Hpad.
  set (tf := trim_fraction F) in *.
  destruct (trim_whole W) as [|c r] eqn:Htw; [discriminate Httw|].
  cbn [all_digits] in Hdtw. apply andb_true_iff in Hdtw. destruct Hdtw as [Hc Hr].
  change ("" ++ String c r ++ "." ++ tf) with (String c (r ++ String "." tf)).
  unfold parseUnits. rewrite (digit_not_minus c Hc).
  change (String c (r ++ String "." tf)) with (String c r ++ String "." tf).
  rewrite span_digits_app; [| cbn [all_digits]; rewrite Hc, Hr; reflexivity | reflexivity].
  change (Ascii.eqb "." ".") with true. cbv iota.
  rewrite (span_digits_all tf Hdtf).
  cbn [truthy orb String.length Nat.add Nat.eqb].
  rewrite Hpad, <- HF, drop_all. unfold slice_to. rewrite substring_all.
  cbn [all_zero negb].
  unfold BigInt. rewrite Hvalue, Hrange. reflexivity.
Qed.

End UnitsFacts.

(** ** Swap *)

Lemma contract_swap_amount (A minted : Z) :
  EscbaseTokenContract.swap A = Some minted ->
  0 < A /\ minted = A * 100000 /\ Ethers.in_range (A * 100000) = true.
Proof.
  unfold EscbaseTokenContract.swap, EscbaseTokenContract.checked_mul,
    EscbaseTokenContract.SWAP_RATE, EscbaseTokenContract.uint256_max.
  destruct (Z.ltb_spec 0 A) as [Hpos|]; [|discriminate].
  destruct (Z.leb_spec (A * 100000) (2 ^ 256 - 1)) as [Hmax|]; [|discriminate].
  intros H. injection H as <-. split; [exact Hpos|]. split; [reflexivity|].
  unfold Ethers.in_range. apply andb_true_iff. split.
  - apply Z.leb_le. assert (0 < 2 ^ 511) by (apply Z.pow_pos_nonneg; lia). lia.
  - apply Z.ltb_lt.
    assert (2 ^ 256 < 2 ^ 511) by (apply Z.pow_lt_mono_r; lia). lia.
Qed.

(** C8: when a swap of the input amount [A] (in smallest native units, as
    parsed from the amount field) is accepted by the contract and confirmed,
    the success entry shows [formatUnits (A * 100000, 18)]: the product is
    taken on unbounded integers, the text shown reads back as [A * 100000]
    digit for digit, and it is the amount the contract mints with its own
    [SWAP_RATE], which is [100000] too. *)
Theorem swap_displays_exact_amount
    (env : Env) (w : World) (address : string) (sg : Signer)
    (A : Z) (tx : Tx) (minted : Z) :
  no_provider (app w) = false ->
  token (deployed (app w)) = Some address ->
  truthy address = true ->
  truthy (swapAmount (app w)) = true ->
  Ethers.parseUnits (swapAmount (app w)) 18 = Resolved A ->
  EscbaseTokenContract.swap A = Some minted ->
  answers env (trace w)
    [Ev getSigner (Resolved sg);
     Ev (token_swap address A) (Resolved tx);
     Ev (tx_wait tx) (Resolved tt)] ->
  let shown := Ethers.fixed_toString (A * 100000) 18 in
  (exists after,
     logs (app (exec (swapUSDCtoESC env) w)) =
       (after
        ++ {| type := success;
              message := "Swapped " ++ swapAmount (app w) ++ " USDC to " ++ shown ++ " ESC";
              href := Some (txLink (hash tx)) |}
        :: logs (app w))%list
     /\ (after = [] \/ exists e, after = [error_entry (getErrorMessage e)]))
  /\ Ethers.formatUnits (A * 100000) 18 = Resolved shown
  /\ Ethers.parseUnits shown 18 = Resolved (A * 100000)
  /\ minted = A * EscbaseTokenContract.SWAP_RATE
  /\ EscbaseTokenContract.SWAP_RATE = 100000.
Proof.
  intros Hprov Htok Haddr Hamount Hparse Hswap (H1 & H2 & H3 & _) shown.
  destruct (contract_swap_amount A minted Hswap) as (Hpos & Hminted & Hrange).
  assert (Hformat : Ethers.formatUnits (A * 100000) 18 = Resolved shown).
  { unfold Ethers.formatUnits. rewrite Hrange. reflexivity. }
  split.
  2:{ split; [exact Hformat|]. split; [|split; [exact Hminted | reflexivity]].
      apply UnitsFacts.parseUnits_fixed_toString; [lia | exact Hrange]. }
  unfold no_provider in Hprov.
  destruct (provider (app w)) as [p|] eqn:Hp; [clear Hprov|discriminate].
  unfold exec.
  destruct (swapUSDCtoESC env w) as [r w'] eqn:Hrun. revert Hrun.
  unfold swapUSDCtoESC, closure. rewrite Hp, Htok, Haddr, Hamount.
  unfold finally, try_catch, swapUSDCtoESC_try, bind, perform, lift.
  cbn [negb orb setBusy update trace app alerts]. rewrite H1.
  rewrite Hparse. cbn [trace app alerts]. rewrite H2.
  cbn [trace app alerts]. rewrite H3.
  rewrite Hformat. unfold logError, pushLog, setLogs, setSwapAmount, setNativeBalance, update.
  cbn [trace app alerts logs].
  match goal with
  | |- context [env Z ?t ?c] => destruct (env Z t c) as [bal|e]
  end.
  - destruct (Ethers.formatUnits bal 18) as [shown_bal|e].
    + cbn. intros Hrun. injection Hrun as <- <-. exists []. split; [reflexivity|].
      left. reflexivity.
    + cbn. intros Hrun. injection Hrun as <- <-.
      exists [error_entry (getErrorMessage e)]. split; [reflexivity|].
      right. exists e. reflexivity.
  - cbn. intros Hrun. injection Hrun as <- <-.
    exists [error_entry (getErrorMessage e)]. split; [reflexivity|].
    right. exists e. reflexivity.
Qed.

Lemma swap_displays_exact_amount_witness :
  let w := session on_arc true
             [ConnectButton; DeployTokenButton; SwapAmountInput "0.0001"] initialWorld in
  Ethers.formatUnits (100000000000000 * 100000) 18 = Resolved "10.0"
  /\ Ethers.parseUnits "10.0" 18 = Resolved (100000000000000 * 100000).
Proof.
  intros w.
  pose proof (swap_displays_exact_amount on_arc w (target the_deployment) the_signer
                100000000000000 the_tx 10000000000000000000
                eq_refl eq_refl eq_refl eq_refl eq_refl eq_refl
                (conj eq_refl (conj eq_refl (conj eq_refl I)))) as H.
  exact (conj (proj1 (proj2 H)) (proj1 (proj2 (proj2 H)))).
Defined.

(** * Further properties of the handlers *)

(** ** What network reconciliation touches *)

Lemma log_grows_refl (w : World) : log_grows w w.
Proof. exists []. reflexivity. Qed.

Lemma log_grows_trans (a b c : World) :
  log_grows a b -> log_grows b c -> log_grows a c.
Proof.
  intros [p1 H1] [p2 H2]. exists (p2 ++ p1)%list.
  rewrite H2, H1. apply app_assoc.
Qed.

Lemma only_logs_refl (w : World) : only_logs w w.
Proof.
  unfold only_logs. repeat split; try reflexivity;
    [apply log_grows_refl | apply extends_refl].
Qed.

Lemma only_logs_trans (a b c : World) :
  only_logs a b -> only_logs b c -> only_logs a c.
Proof.
  unfold only_logs.
  intros (L1 & P1 & S1 & B1 & D1 & N1 & R1 & A1 & W1 & Al1 & E1)
         (L2 & P2 & S2 & B2 & D2 & N2 & R2 & A2 & W2 & Al2 & E2).
  repeat split; try congruence.
  - eapply log_grows_trans; eassumption.
  - eapply extends_trans; eassumption.
Qed.

Lemma only_logs_perform (env : Env) {T} (c : Call T) :
  steps only_logs (perform env c).
Proof.
  intro w. unfold only_logs. repeat split; try reflexivity.
  - exists []. reflexivity.
  - eexists. reflexivity.
Qed.

Lemma only_logs_pushLog (item : LogItem) : steps only_logs (pushLog item).
Proof.
  intro w. unfold only_logs. repeat split; try reflexivity.
  - exists [item]. reflexivity.
  - exists []. cbn. symmetry. apply app_nil_r.
Qed.

Lemma ensureArcNetwork_only_logs (env : Env) (prov : BrowserProvider) :
  steps only_logs (ensureArcNetwork env prov).
Proof.
  unfold ensureArcNetwork.
  handler_steps only_logs_refl only_logs_trans;
    match goal with
    | |- steps _ (perform _ _) => apply only_logs_perform
    | |- steps _ (pushLog _) => apply only_logs_pushLog
    end.
Qed.

(** X1: whatever the wallet answers, [ensureArcNetwork] starts with the
    read of the network id, issues at most four requests in all, at most two
    of them switch requests and at most one an add request, and all of them
    network requests; it changes nothing in the state but the log, where it
    only puts entries in front. *)
Theorem ensureArcNetwork_requests_bounded
    (env : Env) (prov : BrowserProvider) (w : World) :
  let w' := exec (ensureArcNetwork env prov) w in
  let new := new_events w w' in
  trace w' = (trace w ++ new)%list
  /\ (exists r, hd_error new = Some (Ev eth_chainId r))
  /\ (List.length new <= 4)%nat
  /\ count is_chain_id_read new = 1%nat
  /\ (count is_switch new <= 2)%nat
  /\ (count is_add new <= 1)%nat
  /\ forallb is_network_request new = true
  /\ only_logs w w'.
Proof.
  intros w' new.
  assert (H : exists l,
    trace w' = (trace w ++ l)%list
    /\ (exists r, hd_error l = Some (Ev eth_chainId r))
    /\ (List.length l <= 4)%nat
    /\ count is_chain_id_read l = 1%nat
    /\ (count is_switch l <= 2)%nat
    /\ (count is_add l <= 1)%nat
    /\ forallb is_network_request l = true).
  { unfold w', exec.
    destruct (ensureArcNetwork env prov w) as [r w1] eqn:Hrun. revert Hrun.
    unfold ensureArcNetwork, try_catch, bind, perform, pushLog, setLogs, update.
    cbn [trace app alerts].
    destruct (env (option string) (trace w) eth_chainId) as [current|e0];
      [destruct (is_target current)|];
      cbn [trace app alerts];
      repeat match goal with
             | |- context [match env unit ?t ?c with _ => _ end] =>
                 destruct (env unit t c); cbn [trace app alerts]
             | |- context [if unrecognized_chain ?e then _ else _] =>
                 destruct (unrecognized_chain e); cbn [trace app alerts]
             end;
      cbn; intros Hrun; injection Hrun as <- <-; cbn [trace];
      rewrite <- ?app_assoc; cbn [List.app];
      eexists; (split; [reflexivity|]);
      (split; [eexists; reflexivity|]);
      cbn; repeat split; lia. }
  destruct H as (l & Ht & Hrest).
  unfold new. rewrite (new_events_app w w' l Ht).
  split; [exact Ht|].
  destruct Hrest as (H1 & H2 & H3 & H4 & H5 & H6).
  repeat split; try assumption; apply (ensureArcNetwork_only_logs env prov w).
Qed.

(** X2: a switch request refused for any reason other than an unrecognized
    chain (the user declining, for one) ends the reconciliation there: no
    add request and no second switch request follow, the function returns
    [false], and the one entry it logs carries the message of that error
    ([unknown error] when it has none). *)
Theorem ensureArcNetwork_switch_refused
    (env : Env) (prov : BrowserProvider) (w : World)
    (current : option string) (err : Thrown) :
  let switch := wallet_switchEthereumChain ARC_CHAIN_ID_HEX in
  let t1 := (trace w ++ [Ev eth_chainId (Resolved current)])%list in
  env _ (trace w) eth_chainId = Resolved current ->
  is_target current = false ->
  env _ t1 switch = Rejected err ->
  unrecognized_chain err = false ->
  let w' := exec (ensureArcNetwork env prov) w in
  result (ensureArcNetwork env prov) w = Resolved false
  /\ trace w' = (t1 ++ [Ev switch (Rejected err)])%list
  /\ count is_add (new_events w w') = 0%nat
  /\ count is_switch (new_events w w') = 1%nat
  /\ logs (app w') =
       error_entry ("Failed to switch to Arc Testnet: " ++ message_or_unknown err)
       :: logs (app w).
Proof.
  intros switch t1 Hread Hother Hswitch Hunrec w'.
  assert (Hrun : ensureArcNetwork env prov w =
    (Resolved false,
     exec (pushLog (error_entry ("Failed to switch to Arc Testnet: "
                                 ++ message_or_unknown err)))
          {| app := app w; trace := (t1 ++ [Ev switch (Rejected err)])%list;
             alerts := alerts w |})).
  { unfold ensureArcNetwork, try_catch, bind, perform. rewrite Hread, Hother.
    cbn [trace app alerts]. fold t1. fold switch. rewrite Hswitch, Hunrec.
    reflexivity. }
  assert (Htrace : trace w' = (t1 ++ [Ev switch (Rejected err)])%list).
  { unfold w', exec. rewrite Hrun. reflexivity. }
  assert (Hnew : new_events w w' =
                 [Ev eth_chainId (Resolved current); Ev switch (Rejected err)]).
  { apply new_events_app. rewrite Htrace. unfold t1. rewrite <- app_assoc.
    reflexivity. }
  rewrite Hnew.
  split; [unfold result; rewrite Hrun; reflexivity|].
  split; [exact Htrace|].
  split; [reflexivity|]. split; [reflexivity|].
  unfold w', exec. rewrite Hrun. reflexivity.
Qed.

Lemma ensureArcNetwork_switch_refused_witness :
  let env := scripted (fun _ => Some "0x1") [(1%nat, user_rejected)] in
  let w' := exec (ensureArcNetwork env WindowEthereum) initialWorld in
  result (ensureArcNetwork env WindowEthereum) initialWorld = Resolved false
  /\ trace w' =
       [Ev eth_chainId (Resolved (Some "0x1"));
        Ev (wallet_switchEthereumChain ARC_CHAIN_ID_HEX) (Rejected user_rejected)]
  /\ count is_add (new_events initialWorld w') = 0%nat
  /\ count is_switch (new_events initialWorld w') = 1%nat
  /\ logs (app w') =
       [error_entry "Failed to switch to Arc Testnet: User rejected the request."].
Proof.
  intros env.
  apply (ensureArcNetwork_switch_refused env WindowEthereum initialWorld
           (Some "0x1") user_rejected); reflexivity.
Defined.

(** ** Controls and guards *)

(** X4: the [disabled] attribute of each action button is the early
    [return] of its handler plus the busy flag: the button is enabled
    exactly when the handler would go past its guard and nothing is in
    flight.  A gesture on an enabled button therefore always runs the action
    (it sets [busy] and enters the [try] block), never its silent early
    [return]. *)
Theorem action_button_matches_guard
    (env : Env) (window_ethereum : bool) (a : Action) (w : World) :
  disabled (action_button a) (app w) = negb (preflight a (app w) && negb (busy (app w)))
  /\ trigger env window_ethereum (action_button a) w =
       (if preflight a (app w) && negb (busy (app w))
        then finally (try_catch (try_block env a (app w)) logError) (setBusy false)
                     (exec (setBusy true) w)
        else (Resolved tt, w)).
Proof.
  assert (Hd : disabled (action_button a) (app w)
               = negb (preflight a (app w) && negb (busy (app w)))).
  { rewrite disabled_without_preflight.
    destruct (preflight a (app w)), (busy (app w)); reflexivity. }
  split; [exact Hd|].
  unfold trigger. rewrite Hd, negb_involutive.
  replace (rendered (action_button a) (app w)) with true by (destruct a; reflexivity).
  cbn [andb].
  destruct (preflight a (app w)) eqn:Hpre; cbn [andb]; [|reflexivity].
  destruct (busy (app w)); cbn [negb]; [reflexivity|].
  replace (handler env window_ethereum (action_button a)) with (run_action env a)
    by (destruct a; reflexivity).
  rewrite run_action_shape, Hpre. reflexivity.
Qed.

(** ** The busy flag *)





(** ** What a session never undoes *)

Ltac unfold_handlers :=
  unfold connect, ensureArcNetwork, deployNFT, deployToken, mintNft, mintToken,
    sendUSDC, swapUSDCtoESC, deployNFT_try, deployToken_try, mintNft_try,
    mintToken_try, sendUSDC_try, swapUSDCtoESC_try, setDeployed;
  unfold_setters.

Lemma deployed_kept_refl (w : World) : deployed_kept w w.
Proof. intros k H. exact H. Qed.

Lemma deployed_kept_trans (a b c : World) :
  deployed_kept a b -> deployed_kept b c -> deployed_kept a c.
Proof. intros H1 H2 k H. apply H2, H1, H. Qed.

Lemma handler_log_grows (env : Env) (window_ethereum : bool) (c : Control) :
  steps log_grows (handler env window_ethereum c).
Proof.
  destruct c; cbn [handler]; unfold_handlers;
    try (destruct window_ethereum; cbn [negb]);
    handler_steps log_grows_refl log_grows_trans;
    intro w; first [ exists []; reflexivity | eexists [_]; reflexivity ].
Qed.

Lemma handler_deployed_kept (env : Env) (window_ethereum : bool) (c : Control) :
  steps deployed_kept (handler env window_ethereum c).
Proof.
  destruct c; cbn [handler]; unfold_handlers;
    try (destruct window_ethereum; cbn [negb]);
    handler_steps deployed_kept_refl deployed_kept_trans;
    intros w k H; destruct k; cbn in *; first [exact H | discriminate].
Qed.

Lemma session_steps
    (R : World -> World -> Prop)
    (R_refl : forall w, R w w)
    (R_trans : forall a b c, R a b -> R b c -> R a c)
    (env : Env) (window_ethereum : bool) :
  (forall c, steps R (handler env window_ethereum c)) ->
  forall gestures w, R w (session env window_ethereum gestures w).
Proof.
  intros Hh gestures.
  induction gestures as [|c rest IH]; intros w; cbn [session]; [apply R_refl|].
  eapply R_trans; [|apply IH].
  unfold trigger.
  destruct (rendered c (app w) && negb (disabled c (app w))); [apply Hh | apply R_refl].
Qed.

(** X6: the activity log is prepend-only.  Whatever the gestures and
    whatever the wallet and the chain answer, the log after a session is
    the log before it with entries put in front: no entry is ever removed,
    reordered or rewritten, so the length never decreases. *)
Theorem log_is_prepend_only
    (env : Env) (window_ethereum : bool) (gestures : list Control) (w : World) :
  exists pre,
    logs (app (session env window_ethereum gestures w)) = (pre ++ logs (app w))%list
    /\ List.length (logs (app (session env window_ethereum gestures w)))
       = (List.length pre + List.length (logs (app w)))%nat.
Proof.
  destruct (session_steps log_grows log_grows_refl log_grows_trans env window_ethereum
              (handler_log_grows env window_ethereum) gestures w) as [pre H].
  exists pre. split; [exact H|]. rewrite H. apply length_app.
Qed.

(** X7: an entry of [deployed] is never removed.  Once a kind has an
    address, it has one after any further gestures, whatever the wallet
    and the chain answer (a later deploy of that kind may replace it, a
    failed one leaves it). *)
Theorem deployed_never_unset
    (env : Env) (window_ethereum : bool) (gestures : list Control) (w : World)
    (k : ContractKind) (address : string) :
  deployed_at k (deployed (app w)) = Some address ->
  exists address',
    deployed_at k (deployed (app (session env window_ethereum gestures w)))
    = Some address'.
Proof.
  intros Hset.
  pose proof (session_steps deployed_kept deployed_kept_refl deployed_kept_trans
                env window_ethereum (handler_deployed_kept env window_ethereum)
                gestures w k) as H.
  destruct (deployed_at k (deployed (app (session env window_ethereum gestures w))))
    as [a'|].
  - exists a'. reflexivity.
  - exfalso. apply H; [rewrite Hset; discriminate | reflexivity].
Qed.

Lemma deployed_never_unset_witness :
  let env := scripted (fun _ => Some ARC_CHAIN_ID_HEX) [(8%nat, user_rejected)] in
  let w := session on_arc true [ConnectButton; DeployNftButton] initialWorld in
  exists address',
    deployed_at SimpleNFT (deployed (app (session env true [DeployNftButton] w)))
    = Some address'.
Proof.
  intros env w.
  apply (deployed_never_unset env true [DeployNftButton] w SimpleNFT
           (target the_deployment)).
  reflexivity.
Defined.

(** ** Transfers and swaps *)

Arguments Ethers.fixed_toString : simpl never.
Arguments Ethers.in_range : simpl never.

(** Running a handler one awaited step at a time. *)

Lemma bind_perform (env : Env) {T B} (c : Call T) (k : T -> M B) (w : World) :
  bind (perform env c) k w =
    match env T (trace w) c with
    | Resolved v =>
        k v {| app := app w;
               trace := (trace w ++ [Ev c (env T (trace w) c)])%list;
               alerts := alerts w |}
    | Rejected e =>
        (Rejected e,
         {| app := app w;
            trace := (trace w ++ [Ev c (env T (trace w) c)])%list;
            alerts := alerts w |})
    end.
Proof. unfold bind, perform. destruct (env T (trace w) c); reflexivity. Qed.

Lemma bind_lift {A B} (o : Outcome A) (k : A -> M B) (w : World) :
  bind (lift o) k w =
    match o with
    | Resolved v => k v w
    | Rejected e => (Rejected e, w)
    end.
Proof. unfold bind, lift. destruct o; reflexivity. Qed.

Lemma bind_update {B} (f : AppState -> AppState) (k : unit -> M B) (w : World) :
  bind (update f) k w =
    k tt {| app := f (app w); trace := trace w; alerts := alerts w |}.
Proof. reflexivity. Qed.

Ltac destruct_outcome :=
  match goal with
  | |- context [match ?o with Resolved _ => _ | Rejected _ => _ end] => destruct o
  end.

Ltac run_step :=
  first
    [ rewrite bind_perform; cbn [trace app alerts]; destruct_outcome
    | rewrite bind_lift; destruct_outcome
    | rewrite bind_update; cbn [trace app alerts] ].

Lemma after_action (env : Env) (a : Action) (w : World) :
  preflight a (app w) = true ->
  exists r w1,
    try_block env a (app w) (exec (setBusy true) w) = (r, w1)
    /\ trace (exec (run_action env a) w) = trace w1
    /\ sendRecipient (app (exec (run_action env a) w)) = sendRecipient (app w1)
    /\ sendAmount (app (exec (run_action env a) w)) = sendAmount (app w1)
    /\ swapAmount (app (exec (run_action env a) w)) = swapAmount (app w1)
    /\ nativeBalance (app (exec (run_action env a) w)) = nativeBalance (app w1)
    /\ deployed (app (exec (run_action env a) w)) = deployed (app w1)
    /\ logs (app (exec (run_action env a) w)) =
         match r with
         | Resolved _ => logs (app w1)
         | Rejected e => error_entry (getErrorMessage e) :: logs (app w1)
         end.
Proof.
  intros Hpre. unfold exec at 2 3 4 5 6 7 8.
  rewrite run_action_shape, Hpre, guarded_run.
  destruct (try_block env a (app w) (exec (setBusy true) w)) as [[[]|e] w1];
    eexists; eexists; (split; [reflexivity|]); repeat split; reflexivity.
Qed.



Lemma run_action_noop_events (env : Env) (a : Action) (w : World) :
  preflight a (app w) = false ->
  new_events w (exec (run_action env a) w) = [].
Proof.
  intros Hpre. unfold exec. rewrite run_action_shape, Hpre. cbn [snd].
  unfold new_events. apply skipn_all.
Qed.

(** Closes a branch of a stepwise run: the final world is read off the run
    equation, the new requests off its trace. *)
Ltac run_done :=
  let Hrun := fresh "Hrun" in
  intros Hrun; injection Hrun as <- <-; cbn [trace app];
  rewrite <- ?app_assoc; cbn [List.app];
  eexists; (split; [try (symmetry; apply app_nil_r); reflexivity|]).

Lemma mintToken_requests (env : Env) (w : World) :
  let new := new_events w (exec (mintToken env) w) in
  token_mints new = []
  \/ exists address owner,
       token (deployed (app w)) = Some address
       /\ token_mints new = [(address, owner, 100 * 10 ^ 18)]
       /\ owner_answers new = [owner].
Proof.
  intros new. unfold new. clear new.
  change (mintToken env) with (run_action env MintToken).
  destruct (preflight MintToken (app w)) eqn:Hpre.
  2:{ left. rewrite (run_action_noop_events env MintToken w Hpre). reflexivity. }
  destruct (after_action env MintToken w Hpre) as (r & w1 & Hrun & Ht & _).
  unfold preflight in Hpre.
  destruct (no_provider (app w)); [discriminate Hpre|].
  destruct (token (deployed (app w))) as [address|] eqn:Htok; [|discriminate Hpre].
  assert (H : exists l,
    trace w1 = (trace w ++ l)%list
    /\ (token_mints l = []
        \/ exists owner,
             token_mints l = [(address, owner, 100 * 10 ^ 18)]
             /\ owner_answers l = [owner])).
  { revert Hrun. cbn [try_block]. rewrite Htok.
    unfold mintToken_try, exec. unfold_setters. cbn [update snd].
    do 2 (run_step; [| run_done; left; reflexivity]).
    rewrite bind_lift, parseUnits_100.
    run_step; [| run_done; right; eexists; split; reflexivity].
    run_step; [unfold update|]; run_done; right; eexists; split; reflexivity. }
  destruct H as (l & Hl & Hshape).
  rewrite (new_events_app w (exec (run_action env MintToken) w) l) by congruence.
  destruct Hshape as [Hnone | (owner & Hm & Ho)]; [left; exact Hnone|].
  right. exists address, owner. repeat split; assumption.
Qed.

Lemma swap_requests (env : Env) (w : World) :
  let new := new_events w (exec (swapUSDCtoESC env) w) in
  swap_calls new = []
  \/ exists address A,
       token (deployed (app w)) = Some address
       /\ Ethers.parseUnits (swapAmount (app w)) 18 = Resolved A
       /\ swap_calls new = [(address, A)].
Proof.
  intros new. unfold new. clear new.
  change (swapUSDCtoESC env) with (run_action env SwapUSDCtoESC).
  destruct (preflight SwapUSDCtoESC (app w)) eqn:Hpre.
  2:{ left. rewrite (run_action_noop_events env SwapUSDCtoESC w Hpre). reflexivity. }
  destruct (after_action env SwapUSDCtoESC w Hpre) as (r & w1 & Hrun & Ht & _).
  unfold preflight in Hpre.
  destruct (no_provider (app w)); [discriminate Hpre|].
  destruct (token (deployed (app w))) as [address|] eqn:Htok; [|discriminate Hpre].
  assert (H : exists l,
    trace w1 = (trace w ++ l)%list
    /\ (swap_calls l = []
        \/ exists A,
             Ethers.parseUnits (swapAmount (app w)) 18 = Resolved A
             /\ swap_calls l = [(address, A)])).
  { revert Hrun. cbn [try_block]. rewrite Htok.
    unfold swapUSDCtoESC_try, exec. unfold_setters. cbn [update snd].
    run_step; [| run_done; left; reflexivity].
    rewrite bind_lift.
    destruct (Ethers.parseUnits (swapAmount (app w)) 18) as [A|e];
      [| run_done; left; reflexivity].
    run_step; [| run_done; right; eexists; split; reflexivity].
    run_step; [| run_done; right; eexists; split; reflexivity].
    cbv zeta. run_step; [| run_done; right; eexists; split; reflexivity].
    do 2 run_step.
    run_step; [run_step|]; [unfold update| |];
      run_done; right; eexists; split; reflexivity. }
  destruct H as (l & Hl & Hshape).
  rewrite (new_events_app w (exec (run_action env SwapUSDCtoESC) w) l) by congruence.
  destruct Hshape as [Hnone | (A & Hp & Hs)]; [left; exact Hnone|].
  right. exists address, A. repeat split; assumption.
Qed.

Lemma send_requests (env : Env) (w : World) :
  let new := new_events w (exec (sendUSDC env) w) in
  transfers new = []
  \/ exists A,
       Ethers.parseUnits (sendAmount (app w)) 18 = Resolved A
       /\ transfers new = [(sendRecipient (app w), A)].
Proof.
  intros new. unfold new. clear new.
  change (sendUSDC env) with (run_action env SendUSDC).
  destruct (preflight SendUSDC (app w)) eqn:Hpre.
  2:{ left. rewrite (run_action_noop_events env SendUSDC w Hpre). reflexivity. }
  destruct (after_action env SendUSDC w Hpre) as (r & w1 & Hrun & Ht & _).
  assert (H : exists l,
    trace w1 = (trace w ++ l)%list
    /\ (transfers l = []
        \/ exists A,
             Ethers.parseUnits (sendAmount (app w)) 18 = Resolved A
             /\ transfers l = [(sendRecipient (app w), A)])).
  { revert Hrun. cbn [try_block].
    unfold sendUSDC_try, exec. unfold_setters. cbn [update snd].
    run_step; [| run_done; left; reflexivity].
    rewrite bind_lift.
    destruct (Ethers.parseUnits (sendAmount (app w)) 18) as [A|e];
      [| run_done; left; reflexivity].
    run_step; [| run_done; right; eexists; split; reflexivity].
    run_step; [| run_done; right; eexists; split; reflexivity].
    do 3 run_step.
    run_step; [run_step|]; [unfold update| |];
      run_done; right; eexists; split; reflexivity. }
  destruct H as (l & Hl & Hshape).
  rewrite (new_events_app w (exec (run_action env SendUSDC) w) l) by congruence.
  exact Hshape.
Qed.

Lemma mintNft_requests (env : Env) (w : World) :
  let new := new_events w (exec (mintNft env) w) in
  nft_mints new = []
  \/ exists address owner,
       nft (deployed (app w)) = Some address
       /\ nft_mints new = [(address, owner)]
       /\ owner_answers new = [owner].
Proof.
  intros new. unfold new. clear new.
  change (mintNft env) with (run_action env MintNft).
  destruct (preflight MintNft (app w)) eqn:Hpre.
  2:{ left. rewrite (run_action_noop_events env MintNft w Hpre). reflexivity. }
  destruct (after_action env MintNft w Hpre) as (r & w1 & Hrun & Ht & _).
  unfold preflight in Hpre.
  destruct (no_provider (app w)); [discriminate Hpre|].
  destruct (nft (deployed (app w))) as [address|] eqn:Hnft; [|discriminate Hpre].
  assert (H : exists l,
    trace w1 = (trace w ++ l)%list
    /\ (nft_mints l = []
        \/ exists owner,
             nft_mints l = [(address, owner)] /\ owner_answers l = [owner])).
  { revert Hrun. cbn [try_block]. rewrite Hnft.
    unfold mintNft_try, exec. unfold_setters. cbn [update snd].
    do 2 (run_step; [| run_done; left; reflexivity]).
    run_step; [| run_done; right; eexists; split; reflexivity].
    run_step; [unfold update|]; run_done; right; eexists; split; reflexivity. }
  destruct H as (l & Hl & Hshape).
  rewrite (new_events_app w (exec (run_action env MintNft) w) l) by congruence.
  destruct Hshape as [Hnone | (owner & Hm & Ho)]; [left; exact Hnone|].
  right. exists address, owner. repeat split; assumption.
Qed.

(** X9: a mint action submits at most one mint request, and when it does,
    the request goes to the address stored in [deployed] for that kind and
    names as recipient the owner that the contract's [owner()] just
    returned; for the token the amount is always 100 whole tokens,
    [100 * 10^18] units, whatever the state. *)
Theorem mint_goes_to_contract_owner (env : Env) (w : World) :
  (let new := new_events w (exec (mintNft env) w) in
   nft_mints new = []
   \/ exists address owner,
        nft (deployed (app w)) = Some address
        /\ nft_mints new = [(address, owner)]
        /\ owner_answers new = [owner])
  /\ (let new := new_events w (exec (mintToken env) w) in
      token_mints new = []
      \/ exists address owner,
           token (deployed (app w)) = Some address
           /\ token_mints new = [(address, owner, 100 * 10 ^ 18)]
           /\ owner_answers new = [owner]).
Proof.
  split; [apply mintNft_requests | apply mintToken_requests].
Qed.

(** X10: what is submitted is what was typed.  A send action submits at
    most one transfer, to the recipient field as it stands and for the
    amount field read as an 18-decimal number; a swap submits at most one
    swap call, to the deployed token with the amount field as value.  When
    the amount field does not parse, nothing is submitted at all. *)
Theorem amounts_submitted_as_typed (env : Env) (w : World) :
  (let new := new_events w (exec (sendUSDC env) w) in
   (transfers new = []
    \/ exists A,
         Ethers.parseUnits (sendAmount (app w)) 18 = Resolved A
         /\ transfers new = [(sendRecipient (app w), A)])
   /\ (forall e, Ethers.parseUnits (sendAmount (app w)) 18 = Rejected e ->
                 transfers new = []))
  /\ (let new := new_events w (exec (swapUSDCtoESC env) w) in
      (swap_calls new = []
       \/ exists address A,
            token (deployed (app w)) = Some address
            /\ Ethers.parseUnits (swapAmount (app w)) 18 = Resolved A
            /\ swap_calls new = [(address, A)])
      /\ (forall e, Ethers.parseUnits (swapAmount (app w)) 18 = Rejected e ->
                    swap_calls new = [])).
Proof.
  split.
  - intros new. pose proof (send_requests env w) as H. fold new in H.
    split; [exact H|]. intros e He.
    destruct H as [H | (A & HA & _)]; [exact H | congruence].
  - intros new. pose proof (swap_requests env w) as H. fold new in H.
    split; [exact H|]. intros e He.
    destruct H as [H | (address & A & _ & HA & _)]; [exact H | congruence].
Qed.

Lemma amounts_submitted_as_typed_witness :
  let w := session on_arc true
             [ConnectButton; MyselfButton; SendAmountInput "1,5"] initialWorld in
  transfers (new_events w (exec (sendUSDC on_arc) w)) = [].
Proof.
  intros w.
  apply (proj2 (proj1 (amounts_submitted_as_typed on_arc w))
           (Ethers.lib_error "invalid FixedNumber string value")).
  vm_compute. reflexivity.
Defined.

(** X11: along a session from a fresh page, a mint or swap request is only
    ever sent to an address that the trace shows as a deployment of that
    kind, sent and confirmed earlier in the same session. *)
Theorem contract_calls_reach_confirmed_deployments
    (env : Env) (window_ethereum : bool) (gestures : list Control) :
  let w := session env window_ethereum gestures initialWorld in
  (forall address owner,
     In (address, owner) (nft_mints (new_events w (exec (mintNft env) w))) ->
     confirmed SimpleNFT address (trace w) = true)
  /\ (forall address owner amount,
        In (address, owner, amount)
           (token_mints (new_events w (exec (mintToken env) w))) ->
        confirmed EscbaseToken address (trace w) = true)
  /\ (forall address value,
        In (address, value) (swap_calls (new_events w (exec (swapUSDCtoESC env) w))) ->
        confirmed EscbaseToken address (trace w) = true).
Proof.
  intros w.
  assert (Hinv : deployed_confirmed w).
  { apply (deployed_confirmed_session env window_ethereum gestures initialWorld).
    intros k a H. destruct k; discriminate H. }
  split; [|split].
  - intros address owner Hin.
    destruct (mintNft_requests env w) as [Hnone | (a & o & Hd & Hm & _)].
    + rewrite Hnone in Hin. destruct Hin.
    + rewrite Hm in Hin. destruct Hin as [Heq | []]. injection Heq as <- <-.
      apply (Hinv SimpleNFT a). exact Hd.
  - intros address owner amount Hin.
    destruct (mintToken_requests env w) as [Hnone | (a & o & Hd & Hm & _)].
    + rewrite Hnone in Hin. destruct Hin.
    + rewrite Hm in Hin. destruct Hin as [Heq | []].
      pose proof (f_equal (fun t => fst (fst t)) Heq) as Ha. cbn [fst] in Ha.
      rewrite <- Ha. apply (Hinv EscbaseToken a). exact Hd.
  - intros address value Hin.
    destruct (swap_requests env w) as [Hnone | (a & A & Hd & _ & Hs)].
    + rewrite Hnone in Hin. destruct Hin.
    + rewrite Hs in Hin. destruct Hin as [Heq | []]. injection Heq as <- <-.
      apply (Hinv EscbaseToken a). exact Hd.
Qed.

Lemma contract_calls_reach_confirmed_deployments_witness :
  let w := session on_arc true [ConnectButton; DeployTokenButton] initialWorld in
  confirmed EscbaseToken (target the_deployment) (trace w) = true.
Proof.
  intros w.
  apply (proj1 (proj2 (contract_calls_reach_confirmed_deployments
                         on_arc true [ConnectButton; DeployTokenButton]))
           (target the_deployment) (signer_address the_signer) (100 * 10 ^ 18)).
  vm_compute. left. reflexivity.
Defined.

(** ** Messages shown for an error *)

Lemma prefix_app (n b : string) : String.prefix n (n ++ b) = true.
Proof.
  induction n as [|c n IH]; cbn; [destruct b; reflexivity|].
  destruct (ascii_dec c c) as [_|Hne]; [exact IH | congruence].
Qed.

Lemma includes_app (needle a b : string) :
  includes needle (a ++ needle ++ b) = true.
Proof.
  induction a as [|c a IH].
  - cbn [append]. destruct (needle ++ b) eqn:Hs; cbn [includes];
      rewrite <- Hs, prefix_app; reflexivity.
  - cbn [append includes]. rewrite IH.
    destruct (String.prefix needle (String c (a ++ needle ++ b))); reflexivity.
Qed.

(** X13: a thrown object is reported as a user rejection whenever its
    numeric code is 4001 or its message contains [ACTION_REJECTED] anywhere,
    whatever its other properties say: the short message, if any, is not
    shown. *)
Theorem user_rejection_recognised (o : ErrorObject) :
  err_code o = Some 4001
  \/ (exists a b, err_message o = Some (a ++ "ACTION_REJECTED" ++ b)) ->
  getErrorMessage (Obj o) = "User rejected in MetaMask".
Proof.
  intros H. cbn [getErrorMessage].
  assert (Hc : code_is 4001 o || message_includes "ACTION_REJECTED" o = true).
  { destruct H as [Hcode | (a & b & Hmsg)].
    - unfold code_is. rewrite Hcode. reflexivity.
    - unfold message_includes. rewrite Hmsg, includes_app. apply orb_true_r. }
  rewrite Hc. reflexivity.
Qed.

Lemma user_rejection_recognised_witness :
  getErrorMessage
    (Obj {| err_code := None;
            err_shortMessage := Some "user rejected action";
            err_message := Some "user rejected action (code=ACTION_REJECTED, version=6)";
            err_toString := "Error: user rejected action" |})
  = "User rejected in MetaMask".
Proof.
  apply user_rejection_recognised. right.
  exists "user rejected action (code=", ", version=6)". reflexivity.
Defined.

Lemma slice_to_prefix (n : nat) (s : string) :
  (n <= String.length s)%nat ->
  String.length (slice_to n s) = n /\ exists rest, s = slice_to n s ++ rest.
Proof.
  unfold slice_to. revert s.
  induction n as [|n IH]; intros s Hn.
  - destruct s; cbn; (split; [reflexivity|]); eexists; reflexivity.
  - destruct s as [|c s]; [cbn in Hn; lia|].
    destruct (IH s) as [Hlen [rest Hrest]]; [cbn in Hn; lia|].
    cbn. rewrite Hlen. split; [reflexivity|].
    exists rest. rewrite <- Hrest. reflexivity.
Qed.

(** X14: for an error that is not a user rejection the text shown is the
    first non-empty one of its short message, its message and its string
    form; a text of at most 180 code units is shown as it is, a longer one
    is cut to exactly its first 180 code units followed by the ellipsis. *)
Theorem error_text_shown_or_cut (o : ErrorObject) :
  code_is 4001 o = false ->
  message_includes "ACTION_REJECTED" o = false ->
  let msg := or_else (err_shortMessage o) (or_else (err_message o) (err_toString o)) in
  ((String.length msg <= 180)%nat -> getErrorMessage (Obj o) = msg)
  /\ ((180 < String.length msg)%nat ->
      getErrorMessage (Obj o) = slice_to 180 msg ++ ellipsis
      /\ String.length (slice_to 180 msg) = 180%nat
      /\ exists rest, msg = slice_to 180 msg ++ rest)
  /\ (forall short, err_shortMessage o = Some short -> truthy short = true ->
                    msg = short).
Proof.
  intros Hcode Hmsg msg. cbn [getErrorMessage]. rewrite Hcode, Hmsg. cbn [orb].
  fold msg. split; [|split].
  - intros Hlen. apply Nat.ltb_ge in Hlen. rewrite Hlen. reflexivity.
  - intros Hlen. pose proof Hlen as Hlt. apply Nat.ltb_lt in Hlt. rewrite Hlt.
    split; [reflexivity|]. apply slice_to_prefix. lia.
  - intros short Hshort Htruthy. unfold msg, or_else at 1.
    rewrite Hshort. cbn [truthy_opt]. rewrite Htruthy. reflexivity.
Qed.

Lemma error_text_shown_or_cut_witness :
  getErrorMessage (provider_error (-32603) long_text)
  = slice_to 180 long_text ++ ellipsis.
Proof.
  apply (proj1 (proj2 (error_text_shown_or_cut
                         {| err_code := Some (-32603); err_shortMessage := None;
                            err_message := Some long_text;
                            err_toString := "Error: " ++ long_text |}
                         eq_refl eq_refl))).
  vm_compute. repeat constructor.
Defined.

(** ** Staying connected *)

Lemma handler_provider_kept (env : Env) (window_ethereum : bool) (c : Control) :
  steps (fun w w' => no_provider (app w) = false -> no_provider (app w') = false)
        (handler env window_ethereum c).
Proof.
  destruct c; cbn [handler]; unfold_handlers;
    try (destruct window_ethereum; cbn [negb]);
    handler_steps
      (fun w (H : no_provider (app w) = false) => H)
      (fun (a b c : World)
           (H1 : no_provider (app a) = false -> no_provider (app b) = false)
           (H2 : no_provider (app b) = false -> no_provider (app c) = false)
           (H : no_provider (app a) = false) => H2 (H1 H));
    intros w H; first [exact H | reflexivity].
Qed.

(** X15: a session never disconnects.  Once a provider is stored it stays
    stored through any further gestures, whatever the wallet answers, so
    the connect button stays disabled: a later gesture on it asks nothing
    and changes nothing. *)
Theorem session_stays_connected
    (env : Env) (window_ethereum : bool) (gestures : list Control) (w : World) :
  no_provider (app w) = false ->
  let w' := session env window_ethereum gestures w in
  no_provider (app w') = false
  /\ trigger env window_ethereum ConnectButton w' = (Resolved tt, w').
Proof.
  intros Hp w'.
  assert (H : no_provider (app w') = false).
  { refine (session_steps
              (fun w w' => no_provider (app w) = false -> no_provider (app w') = false)
              _ _ env window_ethereum (handler_provider_kept env window_ethereum)
              gestures w Hp); auto. }
  split; [exact H|].
  unfold trigger. cbn [rendered disabled andb]. rewrite H. reflexivity.
Qed.

Lemma session_stays_connected_witness :
  let env := scripted (fun _ => Some "0x1") [(4%nat, user_rejected)] in
  let w' := session env true [SwitchToArcButton; DeployNftButton] connected in
  no_provider (app w') = false
  /\ trigger env true ConnectButton w' = (Resolved tt, w').
Proof.
  intros env.
  apply (session_stays_connected env true [SwitchToArcButton; DeployNftButton] connected).
  reflexivity.
Defined.

Lemma ensureArcNetwork_requests_bounded_witness :
  let env := scripted (fun _ => Some "0x1") [(1%nat, unrecognized)] in
  let w' := exec (ensureArcNetwork env WindowEthereum) connected in
  (List.length (new_events connected w') <= 4)%nat
  /\ only_logs connected w'.
Proof.
  intros env w'.
  pose proof (ensureArcNetwork_requests_bounded env WindowEthereum connected) as H.
  exact (conj (proj1 (proj2 (proj2 H)))
              (proj2 (proj2 (proj2 (proj2 (proj2 (proj2 (proj2 H)))))))).
Defined.

(** ** Connecting *)

(** X3: [connect] is all or nothing, and which of the two is decided by
    its three awaited steps.  Without an injected wallet it shows one alert,
    asks nothing and changes nothing.  With one, it stores the provider
    exactly when the authorization is granted, the reconciliation returns
    [true] and the signer is obtained; it then stores the address of that
    very signer, puts the connected entry on top of the log as it was, and
    shows the balance it read (the displayed balance keeps its value when
    the read or its formatting fails).  In every other case it stops at the
    failing step: the state is as before but for the entry the reconciler
    may have logged, and the rejection of the authorization or of the signer
    leaves [connect] uncaught. *)
Theorem connect_all_or_nothing (env : Env) (w : World) :
  (connect env false w =
     (Resolved tt,
      {| app := app w; trace := trace w;
         alerts := (alerts w ++ ["MetaMask not found. Please install it."])%list |}))
  /\ (let w0 := exec (perform env eth_requestAccounts) w in
      let w' := exec (connect env true) w in
      let r := result (connect env true) w in
      match env unit (trace w) eth_requestAccounts with
      | Rejected e =>
          r = Rejected e /\ app w' = app w
          /\ new_events w w' = [Ev eth_requestAccounts (Rejected e)]
      | Resolved _ =>
          match ensureArcNetwork env WindowEthereum w0 with
          | (Resolved true, w2) =>
              match env Signer (trace w2) getSigner with
              | Resolved sg =>
                  r = Resolved tt
                  /\ provider (app w') = Some WindowEthereum
                  /\ signerAddress (app w') = signer_address sg
                  /\ logs (app w') = connected_entry :: logs (app w)
                  /\ nativeBalance (app w') =
                       match env Z (trace w2 ++ [Ev getSigner (Resolved sg)])%list
                                 (getBalance (signer_address sg)) with
                       | Resolved bal =>
                           match Ethers.formatUnits bal 18 with
                           | Resolved shown => shown
                           | Rejected _ => nativeBalance (app w)
                           end
                       | Rejected _ => nativeBalance (app w)
                       end
                  /\ deployed (app w') = deployed (app w)
                  /\ busy (app w') = busy (app w)
              | Rejected e =>
                  r = Rejected e /\ app w' = app w
              end
          | (Resolved false, w2) =>
              r = Resolved tt /\ w' = w2 /\ only_logs w w'
              /\ provider (app w') = provider (app w)
              /\ signerAddress (app w') = signerAddress (app w)
          | (Rejected e, w2) =>
              r = Rejected e /\ only_logs w w'
          end
      end).
Proof.
  split; [reflexivity|].
  intros w0 w' r. unfold r, w', w0, result, exec.
  destruct (connect env true w) as [rr w1] eqn:Hrun. cbn [fst snd]. revert Hrun.
  change (snd (perform env eth_requestAccounts w))
    with {| app := app w;
            trace := (trace w ++ [Ev eth_requestAccounts
                                    (env unit (trace w) eth_requestAccounts)])%list;
            alerts := alerts w |}.
  unfold connect. cbn [negb]. cbv zeta. rewrite bind_perform.
  destruct (env unit (trace w) eth_requestAccounts) as [u|e].
  2:{ intros Hrun. injection Hrun as <- <-. cbn [app].
      split; [reflexivity|]. split; [reflexivity|].
      apply new_events_app. reflexivity. }
  set (wa := {| app := app w;
                trace := (trace w ++ [Ev eth_requestAccounts (Resolved u)])%list;
                alerts := alerts w |}).
  assert (Hwa : only_logs w wa).
  { unfold only_logs, wa. cbn. repeat split; try reflexivity;
      [exists []; reflexivity | eexists; reflexivity]. }
  unfold bind at 1.
  pose proof (ensureArcNetwork_only_logs env WindowEthereum wa) as Honly.
  destruct (ensureArcNetwork_catches env WindowEthereum wa) as (ok & Hres & Hlogs).
  unfold result, exec in Honly, Hres, Hlogs.
  destruct (ensureArcNetwork env WindowEthereum wa) as [[b|e] w2];
    cbn [fst snd] in *.
  2:{ discriminate Hres. }
  injection Hres as <-.
  pose proof (only_logs_trans _ _ _ Hwa Honly) as Hw2.
  destruct b; cbn [negb].
  2:{ intros Hrun. injection Hrun as <- <-.
      split; [reflexivity|]. split; [reflexivity|]. split; [exact Hw2|].
      split; apply Hw2. }
  destruct Hw2 as (_ & Hp & Hs & Hb & Hd & Hn & Hr & Ha & Hsw & Hal & _).
  assert (Hlog2 : logs (app w2) = logs (app w)) by exact Hlogs.
  rewrite bind_perform. cbn [trace app alerts].
  destruct (env Signer (trace w2) getSigner) as [sg|e].
  2:{ intros Hrun. injection Hrun as <- <-. cbn [app].
      split; [reflexivity|].
      destruct (app w2), (app w); cbn in *; congruence. }
  unfold_setters. rewrite !bind_update. cbn [trace app alerts].
  unfold bind at 1. unfold try_catch. rewrite bind_perform. cbn [trace app alerts].
  destruct (env Z (trace w2 ++ [Ev getSigner (Resolved sg)])%list
                (getBalance (signer_address sg))) as [bal|e].
  - rewrite bind_lift.
    destruct (Ethers.formatUnits bal 18) as [shown|e];
      unfold update; cbn; intros Hrun; injection Hrun as <- <-; cbn;
      rewrite ?Hlog2; repeat split; congruence.
  - unfold update. cbn. intros Hrun. injection Hrun as <- <-. cbn.
    rewrite ?Hlog2. repeat split; congruence.
Qed.

Lemma connect_all_or_nothing_witness :
  provider (app (exec (connect on_arc true) initialWorld)) = Some WindowEthereum
  /\ signerAddress (app (exec (connect on_arc true) initialWorld))
     = signer_address the_signer
  /\ logs (app (exec (connect on_arc true) initialWorld)) = [connected_entry].
Proof.
  pose proof (proj2 (connect_all_or_nothing on_arc initialWorld)) as H.
  exact (conj (proj1 (proj2 H))
              (conj (proj1 (proj2 (proj2 H))) (proj1 (proj2 (proj2 (proj2 H)))))).
Defined.
